(** * redux-create-fetcher: a shallow embedding of [src/index.js]

    [Fetcher(actionPrefix, paramsFunc)] builds, for one family of resources,
    a thunk [key => dispatch => ...] that dispatches a request action, calls
    [fetch], and dispatches a success or a failure action.

    The embedding follows the JavaScript source line by line:
    - JavaScript values that the code only moves around or converts to a
      string are the inductive type [value]; a position where the code
      expects something callable holds a [jsval F], plain data or a function;
    - every side effect (a call of [dispatch], of [console.error], of a user
      callback, of [fetch], of a body method of the response) is recorded in
      an event list, and a JavaScript [throw] is an abrupt completion: the
      monad [M] is a writer over events with exceptions.  The callbacks of
      the user are computations in [M] too: they may throw, and they may
      cause events, for instance by invoking the capability they were given;
    - a promise is represented by the state it settles in, and the handlers
      given to [then] contribute their events after the events of the
      synchronous part of the invocation: everything that follows the event
      [CallFetch] in a run happens after the thunk has returned.

    Numbers are modelled by the integers, objects by association lists with
    distinct keys.  A response has the five body methods of the
    documentation; what any other property of it is - a method, or nothing
    that can be called - is part of the response. *)

From Stdlib Require Import List String ZArith Bool Lia DecimalString.
Import ListNotations.
Open Scope string_scope.

Set Warnings "-register-all".

(** ** JavaScript values *)

(** Plain data.  Numbers are the integers; objects are association lists in
    property order. *)
Inductive value : Type :=
| VUndefined
| VNull
| VBool (b : bool)
| VNum (n : Z)
| VStr (s : string)
| VSymbol (description : string)
| VArr (elems : list value)
| VObj (props : list (string * value)).

(** A value that may be callable: plain data, or a function of type [F]. *)
Inductive jsval (F : Type) : Type :=
| Plain (v : value)
| Func (f : F).
Arguments Plain {F} v.
Arguments Func {F} f.

(** Where a function is only ever converted to a string, it is represented
    by the text that conversion yields. *)
Definition source := string.

(** The [typeof] operator. *)
Definition typeof_value (v : value) : string :=
  match v with
  | VUndefined => "undefined"
  | VNull => "object"
  | VBool _ => "boolean"
  | VNum _ => "number"
  | VStr _ => "string"
  | VSymbol _ => "symbol"
  | VArr _ => "object"
  | VObj _ => "object"
  end.

Definition typeof {F} (x : jsval F) : string :=
  match x with
  | Plain v => typeof_value v
  | Func _ => "function"
  end.

(** The decimal form of an integer: what JavaScript prints for a number
    below [10^21] in absolute value (beyond, it prints an exponent). *)
Definition string_of_Z (n : Z) : string :=
  NilZero.string_of_int (Z.to_int n).

(** The abstract operation ToString; [None] stands for the TypeError that
    converting a symbol raises.  Arrays are joined with commas, [undefined]
    and [null] elements printing as the empty string; a plain object prints
    as [[object Object]]. *)
Fixpoint ToString (v : value) : option string :=
  match v with
  | VUndefined => Some "undefined"
  | VNull => Some "null"
  | VBool true => Some "true"
  | VBool false => Some "false"
  | VNum n => Some (string_of_Z n)
  | VStr s => Some s
  | VSymbol _ => None
  | VArr elems =>
      (fix join (l : list value) : option string :=
         match l with
         | [] => Some ""
         | x :: rest =>
             let elem :=
               match x with
               | VUndefined | VNull => Some ""
               | _ => ToString x
               end in
             match elem, join rest with
             | Some a, Some b =>
                 Some (match rest with [] => a | _ :: _ => a ++ "," ++ b end)
             | _, _ => None
             end
         end) elems
  | VObj _ => Some "[object Object]"
  end.

Definition ToString_js (x : jsval source) : option string :=
  match x with
  | Plain v => ToString v
  | Func src => Some src
  end.

(** Property lookup on an object literal. *)
Fixpoint get (name : string) (props : list (string * value)) : value :=
  match props with
  | [] => VUndefined
  | (k, v) :: rest => if k =? name then v else get name rest
  end.

Definition field (name : string) (v : value) : value :=
  match v with
  | VObj props => get name props
  | _ => VUndefined
  end.

(** The error raised when a non-callable is called, [undefined] or [null] is
    destructured, or a symbol is converted to a string. *)
Definition TypeError : value := VObj [("name", VStr "TypeError")].

(** ** Effects *)

(** The five body-reading methods of a [fetch] response. *)
Inductive bodyMethod : Type :=
| ArrayBuffer | Blob | FormData | Json | Text.

(** What can name a property: a string, or a symbol. *)
Inductive propertyKey : Type :=
| Named (name : string)
| Symbolic (description : string).

(** The abstract operation ToPropertyKey: a symbol names itself, anything
    else is converted to a string; [None] stands for the TypeError of that
    conversion. *)
Definition ToPropertyKey (x : jsval source) : option propertyKey :=
  match x with
  | Plain (VSymbol description) => Some (Symbolic description)
  | _ => option_map Named (ToString_js x)
  end.

Inductive event : Type :=
| Dispatch (action : value)
| ConsoleError (message : string)
| CallParamsFunc
| CallFetchURLFunc (key : value)
| CallFetchOptionsFunc (key : value)
| CallFetch (url options : value)
| CallBody (method : bodyMethod)
| CallProperty (property : propertyKey)
| CallDeferredSuccess (v : value)
| CallParseResponse (v : value).

Inductive completion (A : Type) : Type :=
| Normal (a : A)
| Throw (e : value).
Arguments Normal {A} a.
Arguments Throw {A} e.

(** A computation: how it completes, and the events it caused, in order. *)
Definition M (A : Type) : Type := (completion A * list event)%type.

Definition ret {A} (a : A) : M A := (Normal a, []).

Definition bind {A B} (m : M A) (k : A -> M B) : M B :=
  match m with
  | (Normal a, w) => let (c, w') := k a in (c, (w ++ w')%list)
  | (Throw e, w) => (Throw e, w)
  end.

Definition throw {A} (e : value) : M A := (Throw e, []).

Definition emit (e : event) : M unit := (Normal tt, [e]).

Declare Scope js_scope.
Delimit Scope js_scope with js.
Notation "x <- m ;; k" := (bind m (fun x => k))
  (at level 61, m at next level, right associativity) : js_scope.
Notation "m ;; k" := (bind m (fun _ => k))
  (at level 61, right associativity) : js_scope.
Open Scope js_scope.

Definition outcome {A} (m : M A) : completion A := fst m.
Definition events {A} (m : M A) : list event := snd m.

(** The call [f(arg)], announced by the event [e]: calling what is not a
    function throws. *)
Definition call {A B} (e : event) (f : jsval (A -> M B)) (arg : A) : M B :=
  match f with
  | Func g => emit e ;; g arg
  | Plain _ => throw TypeError
  end.

(** String concatenation [x + suffix]. *)
Definition concat (x : jsval source) (suffix : string) : M string :=
  match ToString_js x with
  | Some s => ret (s ++ suffix)
  | None => throw TypeError
  end.

Definition console_error (message : string) : M unit :=
  emit (ConsoleError message).

(** ** Promises *)

(** A promise, by the state it settles in. *)
Inductive promise (A : Type) : Type :=
| Fulfilled (a : A)
| Rejected (e : value).
Arguments Fulfilled {A} a.
Arguments Rejected {A} e.

(** What a [then] handler returns: a value, or a promise to adopt. *)
Inductive resolution : Type :=
| Value (v : value)
| Thenable (p : promise value).

Definition resolve (c : completion resolution) : promise value :=
  match c with
  | Normal (Value v) => Fulfilled v
  | Normal (Thenable p) => p
  | Throw e => Rejected e
  end.

(** [p.then(onFulfilled, onRejected)]: the handler that matches the state of
    [p] runs; the new promise settles as that handler completes.  A handler
    that throws rejects the new promise, it does not throw into the caller,
    and [onRejected] does not see what [onFulfilled] throws. *)
Definition then_ {A} (p : promise A)
    (onFulfilled : A -> M resolution) (onRejected : value -> M resolution)
  : M (promise value) :=
  let (c, w) :=
    match p with
    | Fulfilled a => onFulfilled a
    | Rejected e => onRejected e
    end in
  (Normal (resolve c), w).

(** A property of a response other than the five body methods: nothing
    that can be called, or a method, by what a call of it does. *)
Inductive member : Type :=
| NotCallable
| MethodPromise (p : promise value)
| MethodOther
| MethodThrows (e : value).

(** A response: what each body method's promise settles to, and what its
    other properties are. *)
Record response : Type := {
  body : bodyMethod -> promise value;
  other : propertyKey -> member
}.

Definition method_of_name (name : string) : option bodyMethod :=
  if name =? "arrayBuffer" then Some ArrayBuffer
  else if name =? "blob" then Some Blob
  else if name =? "formData" then Some FormData
  else if name =? "json" then Some Json
  else if name =? "text" then Some Text
  else None.

(** [response[k]()] for a property that is none of the five: what is not a
    function cannot be called; the result of a method that returns no
    promise has no [then] to call. *)
Definition invoke (r : response) (k : propertyKey) : M (promise value) :=
  match other r k with
  | NotCallable => throw TypeError
  | MethodPromise p => emit (CallProperty k) ;; ret p
  | MethodOther => emit (CallProperty k) ;; throw TypeError
  | MethodThrows e => emit (CallProperty k) ;; throw e
  end.

(** [response[responseType]()], for whatever [responseType] names. *)
Definition call_body (r : response) (responseType : jsval source)
  : M (promise value) :=
  match ToPropertyKey responseType with
  | Some (Named name) =>
      match method_of_name name with
      | Some m => emit (CallBody m) ;; ret (body r m)
      | None => invoke r (Named name)
      end
  | Some (Symbolic description) => invoke r (Symbolic description)
  | None => throw TypeError
  end.

(** ** The configuration returned by [paramsFunc] *)

Definition callback := value -> M value.

(** An object with the five properties the code reads; a property that is
    absent is [Plain VUndefined]. *)
Record config : Type := {
  fetchURLFunc : jsval callback;
  fetchOptionsFunc : jsval callback;
  responseType : jsval source;
  parseResponse : jsval callback;
  deferredSuccess : jsval callback
}.

(** What [paramsFunc] returns: an object as above, or plain data. *)
Inductive params : Type :=
| Object (c : config)
| NotObject (v : value).

Definition of_value (v : value) : config :=
  {| fetchURLFunc := Plain (field "fetchURLFunc" v);
     fetchOptionsFunc := Plain (field "fetchOptionsFunc" v);
     responseType := Plain (field "responseType" v);
     parseResponse := Plain (field "parseResponse" v);
     deferredSuccess := Plain (field "deferredSuccess" v) |}.

(** Reading the properties: [undefined] and [null] cannot be destructured. *)
Definition properties (r : params) : M config :=
  match r with
  | Object c => ret c
  | NotObject VUndefined => throw TypeError
  | NotObject VNull => throw TypeError
  | NotObject v => ret (of_value v)
  end.

(** A default replaces a property exactly when it is [undefined]. *)
Definition or_default {F} (x : jsval F) (d : jsval F) : jsval F :=
  match x with
  | Plain VUndefined => d
  | _ => x
  end.

Definition default_fetchOptionsFunc : callback :=
  fun key => ret (VObj [("method", VStr "GET")]).
Definition default_responseType : jsval source := Plain (VStr "json").
Definition default_parseResponse : callback := fun value => ret value.

(** Lines 28-34: the destructuring pattern with its defaults. *)
Definition with_defaults (c : config) : config :=
  {| fetchURLFunc := fetchURLFunc c;
     fetchOptionsFunc :=
       or_default (fetchOptionsFunc c) (Func default_fetchOptionsFunc);
     responseType := or_default (responseType c) default_responseType;
     parseResponse :=
       or_default (parseResponse c) (Func default_parseResponse);
     deferredSuccess := or_default (deferredSuccess c) (Plain VUndefined) |}.

Definition destructure (r : params) : M config :=
  c <- properties r ;;
  ret (with_defaults c).

(** ** The action creators (lines 3-18) *)

Definition requestAction (actionPrefix : jsval source) (key : value)
  : M value :=
  type <- concat actionPrefix "_REQUEST" ;;
  ret (VObj [("type", VStr type); ("key", key)]).

Definition successAction (actionPrefix : jsval source) (key result : value)
  : M value :=
  type <- concat actionPrefix "_SUCCESS" ;;
  ret (VObj [("type", VStr type); ("key", key); ("result", result)]).

Definition failureAction (actionPrefix : jsval source) (key error : value)
  : M value :=
  type <- concat actionPrefix "_FAILURE" ;;
  ret (VObj [("type", VStr type); ("key", key); ("error", error)]).

(** ** The thunk (lines 21-65) *)

(** What the thunk returns: nothing, or the promise of line 51. *)
Inductive returned : Type :=
| ReturnsUndefined
| ReturnsPromise (p : promise value).

(** Lines 24-26, closed over [actionPrefix], [key] and [dispatch]. *)
Definition dispatchSuccessAction (actionPrefix : jsval source) (key : value)
    (dispatch : callback) : callback :=
  fun result =>
    action <- successAction actionPrefix key result ;;
    dispatch action ;;
    ret VUndefined.

(** Lines 38-45: the message, built left to right. *)
Definition validation_message (actionPrefix : jsval source)
    (fetchURLFunc : jsval callback) : M string :=
  match ToString_js actionPrefix with
  | Some shown =>
      ret ("Fetcher requires string `actionPrefix` " ++
           " and function `fetchURLFunc` to be " ++
           "specified in paramsFunc; got " ++
           shown ++ " (type " ++
           typeof actionPrefix ++ ") and (type " ++
           typeof fetchURLFunc ++ "), respectively")
  | None => throw TypeError
  end.

(** Lines 60 and 62: both rejection handlers. *)
Definition onRejected (actionPrefix : jsval source) (key : value)
    (dispatch : callback) : value -> M resolution :=
  fun error =>
    action <- failureAction actionPrefix key error ;;
    returned <- dispatch action ;;
    ret (Value returned).

(** Lines 53-59: the handler of the decoded body. *)
Definition onValue (actionPrefix : jsval source) (key : value)
    (dispatch : callback) (cfg : config) : value -> M resolution :=
  fun value =>
    if negb (typeof (deferredSuccess cfg) =? "undefined")
    then
      call (CallDeferredSuccess value) (deferredSuccess cfg) value ;;
      ret (Value VUndefined)
    else
      parsed <- call (CallParseResponse value) (parseResponse cfg) value ;;
      dispatchSuccessAction actionPrefix key dispatch parsed ;;
      ret (Value VUndefined).

(** Lines 52-61: the handler of the response. *)
Definition onResponse (actionPrefix : jsval source) (key : value)
    (dispatch : callback) (cfg : config) : response -> M resolution :=
  fun response =>
    b <- call_body response (responseType cfg) ;;
    q <- then_ b (onValue actionPrefix key dispatch cfg)
                 (onRejected actionPrefix key dispatch) ;;
    ret (Thenable q).

Section Program.

(** The global [fetch]. *)
Variable fetch : value -> value -> M (promise response).

(** Lines 51-63: the network call and its two handlers. *)
Definition issue (actionPrefix : jsval source) (key : value)
    (dispatch : callback) (cfg : config) : M returned :=
  url <- call (CallFetchURLFunc key) (fetchURLFunc cfg) key ;;
  options <- call (CallFetchOptionsFunc key) (fetchOptionsFunc cfg) key ;;
  p <- fetch url options ;;
  q <- then_ p (onResponse actionPrefix key dispatch cfg)
               (onRejected actionPrefix key dispatch) ;;
  ret (ReturnsPromise q).

Definition Fetcher (actionPrefix : jsval source)
    (paramsFunc : jsval (callback -> M params))
    (key : value) (dispatch : callback) : M returned :=
  r <- call CallParamsFunc paramsFunc
         (dispatchSuccessAction actionPrefix key dispatch) ;;
  cfg <- destructure r ;;
  if negb (typeof actionPrefix =? "string") ||
     negb (typeof (fetchURLFunc cfg) =? "function")
  then
    message <- validation_message actionPrefix (fetchURLFunc cfg) ;;
    console_error message ;;
    ret ReturnsUndefined
  else
    action <- requestAction actionPrefix key ;;
    dispatch action ;;
    issue actionPrefix key dispatch cfg.

End Program.

(** ** The collaborators *)

(** [fetch] over a network that settles each request one way or the other. *)
Definition transport (network : value -> value -> promise response)
  : value -> value -> M (promise response) :=
  fun url options => emit (CallFetch url options) ;; ret (network url options).

(** The store's [dispatch]: it records the action and returns a value. *)
Definition store (returns : value -> value) : callback :=
  fun action => emit (Dispatch action) ;; ret (returns action).

(** ** Reading an event list *)

(** The actions dispatched, in order. *)
Fixpoint dispatched (w : list event) : list value :=
  match w with
  | [] => []
  | Dispatch action :: rest => action :: dispatched rest
  | _ :: rest => dispatched rest
  end.

(** Whether an action has the given [type]. *)
Definition typed (type : string) (action : value) : bool :=
  match field "type" action with
  | VStr t => t =? type
  | _ => false
  end.

(** How many actions of a type were dispatched. *)
Definition count (type : string) (w : list event) : nat :=
  List.length (filter (typed type) (dispatched w)).

(** Network activity: evaluating the URL or the options, calling [fetch],
    reading the body. *)
Definition network_activity (e : event) : bool :=
  match e with
  | CallFetchURLFunc _ | CallFetchOptionsFunc _ | CallFetch _ _
  | CallBody _ | CallProperty _ => true
  | _ => false
  end.

(** ** What is assumed of the callbacks *)

(** [f] is a function, and [f(arg)] returns [out] and causes no event. *)
Definition yields (f : jsval callback) (arg out : value) : Prop :=
  exists g, f = Func g /\ g arg = ret out.

(** [responseType] names nothing of the response that can be called: none
    of the five body methods, and no other method. *)
Definition not_callable (r : response) (responseType : jsval source)
  : Prop :=
  match ToPropertyKey responseType with
  | Some (Named name) =>
      method_of_name name = None /\ other r (Named name) = NotCallable
  | Some (Symbolic description) =>
      other r (Symbolic description) = NotCallable
  | None => True
  end.

(** [responseType] names the body method [m]. *)
Definition selects (responseType : jsval source) (m : bodyMethod) : Prop :=
  exists name,
    ToString_js responseType = Some name /\ method_of_name name = Some m.

(** Every event of [w] is one that some call of [cap] causes: the callbacks
    reach the store through the capability only. *)
Definition via (cap : callback) (w : list event) : Prop :=
  Forall (fun e => exists r, In e (events (cap r))) w.

Definition callback_via (cap : callback) (f : jsval callback) : Prop :=
  match f with
  | Func g => forall v, via cap (events (g v))
  | Plain _ => True
  end.

Definition config_via (cap : callback) (c : config) : Prop :=
  callback_via cap (fetchURLFunc c) /\
  callback_via cap (fetchOptionsFunc c) /\
  callback_via cap (parseResponse c) /\
  callback_via cap (deferredSuccess c).

(** [f] is a function, and [f(arg)] returns normally. *)
Definition returns_on (f : jsval callback) (arg : value) : Prop :=
  exists g, f = Func g /\ exists out w, g arg = (Normal out, w).

(** [f] is a function that returns normally on every argument. *)
Definition total (f : jsval callback) : Prop :=
  forall arg, returns_on f arg.


(** ** The three actions of a string prefix [s] *)

Definition request_of (s : string) (key : value) : value :=
  VObj [("type", VStr (s ++ "_REQUEST")); ("key", key)].

Definition success_of (s : string) (key result : value) : value :=
  VObj [("type", VStr (s ++ "_SUCCESS")); ("key", key); ("result", result)].

Definition failure_of (s : string) (key error : value) : value :=
  VObj [("type", VStr (s ++ "_FAILURE")); ("key", key); ("error", error)].

(** What can follow the request action: calls of the collaborators, and
    success and failure actions of this prefix and key; no second request
    action, no diagnostic. *)
Definition after_request (s : string) (key : value) (e : event) : Prop :=
  match e with
  | Dispatch action =>
      (exists result, action = success_of s key result) \/
      (exists error, action = failure_of s key error)
  | ConsoleError _ => False
  | CallParamsFunc => False
  | _ => True
  end.

(** An event that ends an invocation: a success or failure action of this
    prefix and key, or the call of [deferredSuccess]. *)
Definition concludes (s : string) (key : value) (e : event) : Prop :=
  match e with
  | Dispatch action =>
      (exists result, action = success_of s key result) \/
      (exists error, action = failure_of s key error)
  | CallDeferredSuccess _ => True
  | _ => False
  end.

(** A handler run that fulfils the promise of [then], after an event that
    concludes the invocation. *)
Definition fulfils_concluded (s : string) (key : value) (h : M resolution)
  : Prop :=
  exists v,
    resolve (outcome h) = Fulfilled v /\
    Exists (concludes s key) (events h).

(** An event that, if it dispatches an action, dispatches one whose [key]
    is the given one. *)
Definition carries (key : value) (e : event) : Prop :=
  match e with
  | Dispatch action => field "key" action = key
  | _ => True
  end.

(** Reading the body of a response. *)
Definition reads_body (e : event) : bool :=
  match e with
  | CallBody _ | CallProperty _ => true
  | _ => false
  end.

(** ** The examples of the documentation *)

(** [user => '/api/' + user + '/friends/'] *)
Definition friends_url : callback :=
  fun user =>
    match ToString user with
    | Some u => ret (VStr ("/api/" ++ u ++ "/friends/"))
    | None => throw TypeError
    end.

(** [{ fetchURLFunc: user => '/api/' + user + '/friends/' }] *)
Definition friends_config : config :=
  {| fetchURLFunc := Func friends_url;
     fetchOptionsFunc := Plain VUndefined;
     responseType := Plain VUndefined;
     parseResponse := Plain VUndefined;
     deferredSuccess := Plain VUndefined |}.

Definition friends_params : callback -> M params :=
  fun _ => ret (Object friends_config).

Definition friends : value := VArr [VStr "bob"; VStr "carol"].

(** A response whose body is the JSON text of [friends]. *)
Definition friends_response : response :=
  {| body := fun m =>
       match m with
       | Json => Fulfilled friends
       | FormData => Rejected TypeError
       | _ => Fulfilled (VObj [])
       end;
     other := fun _ => NotCallable |}.

Definition friends_network : value -> value -> promise response :=
  fun _ _ => Fulfilled friends_response.

Definition reset_network : value -> value -> promise response :=
  fun _ _ => Rejected (VStr "ECONNRESET").

(** A response whose body cannot be decoded. *)
Definition garbled_response : response :=
  {| body := fun _ => Rejected (VStr "SyntaxError");
     other := fun _ => NotCallable |}.

Definition garbled_network : value -> value -> promise response :=
  fun _ _ => Fulfilled garbled_response.

(** A response that, besides the five, has a method [bytes] returning a
    promise and a method [clone] returning no promise. *)
Definition platform_response : response :=
  {| body := fun m =>
       match m with
       | Json => Fulfilled friends
       | FormData => Rejected TypeError
       | _ => Fulfilled (VObj [])
       end;
     other := fun k =>
       match k with
       | Named name =>
           if name =? "bytes" then MethodPromise (Fulfilled (VObj []))
           else if name =? "clone" then MethodOther
           else NotCallable
       | Symbolic _ => NotCallable
       end |}.

Definition platform_network : value -> value -> promise response :=
  fun _ _ => Fulfilled platform_response.

(** [responseType: 'bytes'] *)
Definition bytes_params : callback -> M params :=
  fun _ =>
    ret (Object
      {| fetchURLFunc := Func friends_url;
         fetchOptionsFunc := Plain VUndefined;
         responseType := Plain (VStr "bytes");
         parseResponse := Plain VUndefined;
         deferredSuccess := Plain VUndefined |}).

(** A configuration that hands the body to [deferredSuccess], which passes
    it on to the capability. *)
Definition deferring_params : callback -> M params :=
  fun dispatchSuccessAction =>
    ret (Object
      {| fetchURLFunc := Func friends_url;
         fetchOptionsFunc := Plain VUndefined;
         responseType := Plain VUndefined;
         parseResponse := Plain VUndefined;
         deferredSuccess := Func (fun v => dispatchSuccessAction v) |}).

(** A configuration without [fetchURLFunc]. *)
Definition empty_params : callback -> M params :=
  fun _ => ret (NotObject (VObj [])).

(** A configuration with a [responseType] that is no body method. *)
Definition xml_params : callback -> M params :=
  fun _ =>
    ret (Object
      {| fetchURLFunc := Func friends_url;
         fetchOptionsFunc := Plain VUndefined;
         responseType := Plain (VStr "xml");
         parseResponse := Plain VUndefined;
         deferredSuccess := Plain VUndefined |}).

(** The store returns the action it was given. *)
Definition same : value -> value := fun action => action.

(** ** Callbacks that cause no event *)

Definition silent (f : jsval callback) : Prop :=
  match f with
  | Func g => forall v, events (g v) = []
  | Plain _ => True
  end.

Definition config_silent (c : config) : Prop :=
  silent (fetchURLFunc c) /\
  silent (fetchOptionsFunc c) /\
  silent (parseResponse c) /\
  silent (deferredSuccess c).

(** The actions a run may dispatch after the request action: none, one
    success action, or one failure action. *)
Definition one_outcome (s : string) (key : value) (d : list value) : Prop :=
  d = [] \/
  (exists result, d = [success_of s key result]) \/
  (exists error, d = [failure_of s key error]).

Definition is_diagnostic (e : event) : bool :=
  match e with
  | ConsoleError _ => true
  | _ => false
  end.

Definition is_params_call (e : event) : bool :=
  match e with
  | CallParamsFunc => true
  | _ => false
  end.

(** A [paramsFunc] that invokes the capability with [result] before it
    returns [p]. *)
Definition eager (result : value) (p : params) : callback -> M params :=
  fun dispatchSuccessAction => dispatchSuccessAction result ;; ret p.

(** ** Configurations that go wrong *)

Definition friends_with (options : jsval callback) (type : jsval source)
    (parse deferred : jsval callback) : config :=
  {| fetchURLFunc := Func friends_url;
     fetchOptionsFunc := options;
     responseType := type;
     parseResponse := parse;
     deferredSuccess := deferred |}.

(** [fetchURLFunc] throws. *)
Definition broken_url_params : callback -> M params :=
  fun _ =>
    ret (Object
      {| fetchURLFunc := Func (fun _ => throw (VStr "no route"));
         fetchOptionsFunc := Plain VUndefined;
         responseType := Plain VUndefined;
         parseResponse := Plain VUndefined;
         deferredSuccess := Plain VUndefined |}).

(** [fetchOptionsFunc: null] *)
Definition null_options_params : callback -> M params :=
  fun _ =>
    ret (Object (friends_with (Plain VNull) (Plain VUndefined)
                   (Plain VUndefined) (Plain VUndefined))).

(** [parseResponse] throws. *)
Definition failing_parse_params : callback -> M params :=
  fun _ =>
    ret (Object (friends_with (Plain VUndefined) (Plain VUndefined)
                   (Func (fun _ => throw (VStr "bad shape")))
                   (Plain VUndefined))).

(** [deferredSuccess: null] *)
Definition null_deferred_params : callback -> M params :=
  fun _ =>
    ret (Object (friends_with (Plain VUndefined) (Plain VUndefined)
                   (Plain VUndefined) (Plain VNull))).

(** [responseType: null] *)
Definition null_type_params : callback -> M params :=
  fun _ =>
    ret (Object (friends_with (Plain VUndefined) (Plain VNull)
                   (Plain VUndefined) (Plain VUndefined))).

(** [paramsFunc] returns nothing. *)
Definition undefined_params : callback -> M params :=
  fun _ => ret (NotObject VUndefined).

(** ** The monad *)

Lemma bind_ret {A B} (a : A) (k : A -> M B) : bind (ret a) k = k a.
Proof. unfold bind, ret. destruct (k a) as [c w]. reflexivity. Qed.

Lemma bind_normal {A B} (m : M A) (k : A -> M B) a w :
  m = (Normal a, w) ->
  bind m k = (outcome (k a), (w ++ events (k a))%list).
Proof. intros ->. unfold bind. destruct (k a) as [c w']. reflexivity. Qed.

(** A property of every event of [m] and of every continuation holds of
    every event of the sequence. *)
Lemma Forall_bind {A B} (P : event -> Prop) (m : M A) (k : A -> M B) :
  Forall P (events m) ->
  (forall a, outcome m = Normal a -> Forall P (events (k a))) ->
  Forall P (events (bind m k)).
Proof.
  destruct m as [[a|e] w]; simpl; intros Hm Hk.
  - specialize (Hk a eq_refl). unfold bind. destruct (k a) as [c w'].
    simpl in *. apply Forall_app; split; assumption.
  - exact Hm.
Qed.

Lemma Forall_then {A} (P : event -> Prop) (p : promise A) onF onR :
  (forall a, Forall P (events (onF a))) ->
  (forall e, Forall P (events (onR e))) ->
  Forall P (events (then_ p onF onR)).
Proof.
  intros HF HR. unfold then_. destruct p as [a|e].
  - specialize (HF a). destruct (onF a); exact HF.
  - specialize (HR e). destruct (onR e); exact HR.
Qed.

Lemma Forall_call {A B} (P : event -> Prop) e (f : jsval (A -> M B)) arg :
  P e ->
  (forall g, f = Func g -> Forall P (events (g arg))) ->
  Forall P (events (call e f arg)).
Proof.
  intros He Hf. destruct f as [v|g]; simpl.
  - constructor.
  - specialize (Hf g eq_refl). destruct (g arg) as [c w]. simpl in *.
    constructor; assumption.
Qed.

Lemma dispatched_app (w w' : list event) :
  dispatched (w ++ w') = (dispatched w ++ dispatched w')%list.
Proof.
  induction w as [|e w IH]; simpl; [reflexivity|].
  destruct e; simpl; rewrite ?IH; reflexivity.
Qed.

Lemma count_app type (w w' : list event) :
  count type (w ++ w') = count type w + count type w'.
Proof.
  unfold count. rewrite dispatched_app, filter_app, List.length_app. reflexivity.
Qed.

(** No action of the type is dispatched by events that all fail the test. *)
Lemma count_zero type (w : list event) :
  Forall (fun e => match e with
                   | Dispatch a => typed type a = false
                   | _ => True
                   end) w ->
  count type w = 0.
Proof.
  unfold count. induction 1 as [|e w He _ IH]; simpl; [reflexivity|].
  destruct e; simpl; try exact IH. rewrite He. exact IH.
Qed.

Lemma eqb_append (s a b : string) : (s ++ a =? s ++ b) = (a =? b).
Proof.
  induction s as [|ch s IH]; simpl; [reflexivity|].
  rewrite Ascii.eqb_refl. exact IH.
Qed.

Lemma events_bind {A B} (m : M A) (k : A -> M B) :
  exists rest, events (bind m k) = (events m ++ rest)%list.
Proof.
  destruct m as [[a|e] w]; simpl.
  - destruct (k a) as [c w']. exists w'. reflexivity.
  - exists []. rewrite app_nil_r. reflexivity.
Qed.

(** *** Reading the body *)

Lemma invoke_cases (r : response) (k : propertyKey) :
  (exists p, invoke r k = (Normal p, [CallProperty k])) \/
  (exists e, invoke r k = (Throw e, [CallProperty k])) \/
  invoke r k = (Throw TypeError, []).
Proof.
  unfold invoke. destruct (other r k) as [|p| |e].
  - right. right. reflexivity.
  - left. exists p. reflexivity.
  - right. left. exists TypeError. reflexivity.
  - right. left. exists e. reflexivity.
Qed.

(** A call of [response[responseType]()] reads the body with one of the
    five methods, or calls another property, which hands back a promise or
    throws, or throws without calling anything. *)
Lemma call_body_cases (r : response) (responseType : jsval source) :
  (exists m, call_body r responseType = (Normal (body r m), [CallBody m])) \/
  (exists k p, call_body r responseType = (Normal p, [CallProperty k])) \/
  (exists k e, call_body r responseType = (Throw e, [CallProperty k])) \/
  call_body r responseType = (Throw TypeError, []).
Proof.
  unfold call_body.
  destruct (ToPropertyKey responseType) as [[name|description]|].
  - destruct (method_of_name name) as [m|].
    + left. exists m. reflexivity.
    + destruct (invoke_cases r (Named name)) as [[p H]|[[e H]|H]];
        rewrite H; eauto 6.
  - destruct (invoke_cases r (Symbolic description)) as [[p H]|[[e H]|H]];
      rewrite H; eauto 6.
  - right. right. right. reflexivity.
Qed.

Lemma ToPropertyKey_named (x : jsval source) (name : string) :
  ToString_js x = Some name -> ToPropertyKey x = Some (Named name).
Proof.
  intros H. destruct x as [v|src]; [destruct v|];
    try (simpl in H; discriminate H);
    unfold ToPropertyKey; rewrite H; reflexivity.
Qed.

Lemma call_body_selected (r : response) (responseType : jsval source) m :
  selects responseType m ->
  call_body r responseType = (Normal (body r m), [CallBody m]).
Proof.
  intros (name & Hname & Hm). unfold call_body.
  rewrite (ToPropertyKey_named _ _ Hname), Hm. reflexivity.
Qed.

Lemma destructure_object (c : config) :
  destructure (Object c) = ret (with_defaults c).
Proof. reflexivity. Qed.

(** ** One invocation with a string prefix *)

Section Invocation.

Variable network : value -> value -> promise response.
Variable returns : value -> value.
Variable s : string.
Variable key : value.

Let prefix : jsval source := Plain (VStr s).
Let dispatch : callback := store returns.
Let capability : callback := dispatchSuccessAction prefix key dispatch.

Let request_of : value := request_of s key.
Let success_of : value -> value := success_of s key.
Let failure_of : value -> value := failure_of s key.
Let after_request : event -> Prop := after_request s key.

Lemma capability_run (result : value) :
  capability result = (Normal VUndefined, [Dispatch (success_of result)]).
Proof. reflexivity. Qed.

Lemma onRejected_run (error : value) :
  onRejected prefix key dispatch error =
  (Normal (Value (returns (failure_of error))),
   [Dispatch (failure_of error)]).
Proof. reflexivity. Qed.

Lemma requestAction_run :
  requestAction prefix key = ret request_of.
Proof. reflexivity. Qed.

(** A configuration whose [fetchURLFunc] is a function passes line 36:
    the request action is dispatched, then the network call is issued. *)
Lemma passes_validation fetch (pf : callback -> M params) c w0 :
  pf capability = (Normal (Object c), w0) ->
  typeof (fetchURLFunc c) = "function" ->
  Fetcher fetch prefix (Func pf) key dispatch =
  (outcome (issue fetch prefix key dispatch (with_defaults c)),
   CallParamsFunc :: w0 ++ Dispatch request_of ::
     events (issue fetch prefix key dispatch (with_defaults c)))%list.
Proof.
  intros Hpf Hurl. unfold Fetcher.
  rewrite (bind_normal _ _ (Object c) (CallParamsFunc :: w0)).
  2:{ simpl. fold capability. rewrite Hpf. reflexivity. }
  rewrite destructure_object, bind_ret.
  simpl fetchURLFunc. rewrite Hurl.
  change (negb (typeof prefix =? "string") || negb ("function" =? "function"))
    with false. cbv iota.
  rewrite requestAction_run, bind_ret.
  rewrite (bind_normal _ _ (returns request_of) [Dispatch request_of])
    by reflexivity.
  reflexivity.
Qed.

(** The first thing [issue] does is to evaluate [fetchURLFunc]. *)
Lemma issue_begins fetch cfg :
  typeof (fetchURLFunc cfg) = "function" ->
  exists rest,
    events (issue fetch prefix key dispatch cfg) =
    CallFetchURLFunc key :: rest.
Proof.
  intros Hurl. unfold issue.
  destruct (fetchURLFunc cfg) as [v|f].
  { destruct v; discriminate Hurl. }
  destruct (events_bind (call (CallFetchURLFunc key) (Func f) key)
    (fun url =>
       options <- call (CallFetchOptionsFunc key) (fetchOptionsFunc cfg) key ;;
       p <- fetch url options ;;
       q <- then_ p (onResponse prefix key dispatch cfg)
                    (onRejected prefix key dispatch) ;;
       ret (ReturnsPromise q))) as [rest ->].
  exists (events (f key) ++ rest)%list. simpl. destruct (f key); reflexivity.
Qed.

(** *** What can follow the request action *)

(** What the callbacks cause through the capability are success actions. *)
Lemma via_success (w : list event) :
  via capability w ->
  Forall (fun e => exists result, e = Dispatch (success_of result)) w.
Proof.
  unfold via. apply Forall_impl. intros e [r Hin].
  rewrite capability_run in Hin. simpl in Hin.
  destruct Hin as [<-|[]]. exists r. reflexivity.
Qed.

Lemma via_after_request (w : list event) :
  via capability w -> Forall after_request w.
Proof.
  intros H. apply via_success in H. revert H. apply Forall_impl.
  intros e [r ->]. left. exists r. reflexivity.
Qed.

Lemma with_defaults_via (c : config) :
  config_via capability c -> config_via capability (with_defaults c).
Proof.
  intros (Hu & Ho & Hp & Hd). unfold config_via, with_defaults. simpl.
  repeat split.
  - exact Hu.
  - destruct (fetchOptionsFunc c) as [[]|]; simpl; try exact I; try exact Ho.
    intros v. constructor.
  - destruct (parseResponse c) as [[]|]; simpl; try exact I; try exact Hp.
    intros v. constructor.
  - destruct (deferredSuccess c) as [[]|]; simpl; try exact I; exact Hd.
Qed.

Lemma call_after_request e (f : jsval callback) arg :
  after_request e -> callback_via capability f ->
  Forall after_request (events (call e f arg)).
Proof.
  intros He Hf. apply Forall_call; [exact He|].
  intros g ->. apply via_after_request, Hf.
Qed.

Lemma onRejected_after_request error :
  Forall after_request (events (onRejected prefix key dispatch error)).
Proof.
  rewrite onRejected_run. constructor; [|constructor].
  right. exists error. reflexivity.
Qed.

Lemma onValue_after_request cfg v :
  config_via capability cfg ->
  Forall after_request (events (onValue prefix key dispatch cfg v)).
Proof.
  intros (_ & _ & Hp & Hd). unfold onValue.
  destruct (negb (typeof (deferredSuccess cfg) =? "undefined")).
  - apply Forall_bind; [|intros; constructor].
    apply call_after_request; [exact I|exact Hd].
  - apply Forall_bind.
    + apply call_after_request; [exact I|exact Hp].
    + intros parsed _. apply Forall_bind; [|intros; constructor].
      fold capability. rewrite capability_run.
      constructor; [|constructor]. left. exists parsed. reflexivity.
Qed.

Lemma onResponse_after_request cfg r :
  config_via capability cfg ->
  Forall after_request (events (onResponse prefix key dispatch cfg r)).
Proof.
  intros Hcfg. unfold onResponse. apply Forall_bind.
  - destruct (call_body_cases r (responseType cfg))
      as [[m H]|[(k & p & H)|[(k & e & H)|H]]];
      rewrite H; repeat constructor.
  - intros b _. apply Forall_bind; [|intros; constructor].
    apply Forall_then.
    + intros v. apply onValue_after_request, Hcfg.
    + apply onRejected_after_request.
Qed.

Lemma issue_after_request cfg :
  config_via capability cfg ->
  Forall after_request
    (events (issue (transport network) prefix key dispatch cfg)).
Proof.
  intros Hcfg. pose proof Hcfg as (Hu & Ho & _ & _). unfold issue.
  apply Forall_bind; [apply call_after_request; [exact I|exact Hu]|].
  intros url _.
  apply Forall_bind; [apply call_after_request; [exact I|exact Ho]|].
  intros options _.
  apply Forall_bind; [repeat constructor|].
  intros p _. apply Forall_bind; [|intros; constructor].
  apply Forall_then.
  - intros r. apply onResponse_after_request, Hcfg.
  - apply onRejected_after_request.
Qed.

(** *** Runs with callbacks that only return *)

Lemma call_yields e (f : jsval callback) arg out :
  yields f arg out -> call e f arg = (Normal out, [e]).
Proof. intros (g & -> & Hg). simpl. rewrite Hg. reflexivity. Qed.

(** The body of the response is decoded and handed on. *)
Lemma onValue_direct cfg v parsed :
  deferredSuccess cfg = Plain VUndefined ->
  yields (parseResponse cfg) v parsed ->
  onValue prefix key dispatch cfg v =
  (Normal (Value VUndefined),
   [CallParseResponse v; Dispatch (success_of parsed)]).
Proof.
  intros Hd Hp. unfold onValue. rewrite Hd. simpl negb. cbv iota.
  rewrite (bind_normal _ _ parsed [CallParseResponse v])
    by (apply call_yields, Hp).
  reflexivity.
Qed.

(** With [deferredSuccess], the body goes to it and nothing else is done. *)
Lemma onValue_deferred cfg ds v :
  deferredSuccess cfg = Func ds ->
  onValue prefix key dispatch cfg v =
  (match outcome (ds v) with
   | Normal _ => Normal (Value VUndefined)
   | Throw e => Throw e
   end,
   CallDeferredSuccess v :: events (ds v)).
Proof.
  intros Hd. unfold onValue. rewrite Hd. simpl.
  destruct (ds v) as [[out|e] w]; simpl; rewrite ?app_nil_r; reflexivity.
Qed.

Lemma onResponse_selected cfg r m :
  selects (responseType cfg) m ->
  onResponse prefix key dispatch cfg r =
  (Normal (Thenable (resolve (outcome
     match body r m with
     | Fulfilled v => onValue prefix key dispatch cfg v
     | Rejected e => onRejected prefix key dispatch e
     end))),
   CallBody m :: events
     match body r m with
     | Fulfilled v => onValue prefix key dispatch cfg v
     | Rejected e => onRejected prefix key dispatch e
     end).
Proof.
  intros Hm. unfold onResponse.
  rewrite (call_body_selected r (responseType cfg) m Hm). simpl. unfold then_.
  destruct (body r m) as [v|e].
  - destruct (onValue prefix key dispatch cfg v) as [c w].
    simpl. rewrite app_nil_r. reflexivity.
  - reflexivity.
Qed.

(** A [responseType] that names no body method, and no other property of
    the response that can be called, makes the handler throw. *)
Lemma onResponse_unknown cfg r name :
  ToString_js (responseType cfg) = Some name ->
  method_of_name name = None ->
  other r (Named name) = NotCallable ->
  onResponse prefix key dispatch cfg r = (Throw TypeError, []).
Proof.
  intros Hname Hm Hother. unfold onResponse, call_body.
  rewrite (ToPropertyKey_named _ _ Hname), Hm. unfold invoke.
  rewrite Hother. reflexivity.
Qed.

Lemma issue_run cfg url options :
  yields (fetchURLFunc cfg) key url ->
  yields (fetchOptionsFunc cfg) key options ->
  issue (transport network) prefix key dispatch cfg =
  (Normal (ReturnsPromise (resolve (outcome
     match network url options with
     | Fulfilled r => onResponse prefix key dispatch cfg r
     | Rejected e => onRejected prefix key dispatch e
     end))),
   [CallFetchURLFunc key; CallFetchOptionsFunc key; CallFetch url options]
   ++ events
     match network url options with
     | Fulfilled r => onResponse prefix key dispatch cfg r
     | Rejected e => onRejected prefix key dispatch e
     end)%list.
Proof.
  intros Hu Ho. unfold issue.
  rewrite (bind_normal _ _ url [CallFetchURLFunc key])
    by (apply call_yields, Hu).
  rewrite (bind_normal _ _ options [CallFetchOptionsFunc key])
    by (apply call_yields, Ho).
  rewrite (bind_normal _ _ (network url options) [CallFetch url options])
    by reflexivity.
  unfold then_.
  destruct (network url options) as [r|e].
  - destruct (onResponse prefix key dispatch cfg r) as [c w].
    simpl. rewrite app_nil_r. reflexivity.
  - reflexivity.
Qed.

Lemma yields_function (f : jsval callback) arg out :
  yields f arg out -> typeof f = "function".
Proof. intros (g & -> & _). reflexivity. Qed.

(** The run up to the settling of [fetch]. *)
Lemma issued_run (pf : callback -> M params) c w0 url options :
  pf capability = (Normal (Object c), w0) ->
  yields (fetchURLFunc c) key url ->
  yields (fetchOptionsFunc (with_defaults c)) key options ->
  Fetcher (transport network) prefix (Func pf) key dispatch =
  (Normal (ReturnsPromise (resolve (outcome
     match network url options with
     | Fulfilled r => onResponse prefix key dispatch (with_defaults c) r
     | Rejected e => onRejected prefix key dispatch e
     end))),
   CallParamsFunc :: w0 ++
   [Dispatch request_of; CallFetchURLFunc key; CallFetchOptionsFunc key;
    CallFetch url options] ++
   events
     match network url options with
     | Fulfilled r => onResponse prefix key dispatch (with_defaults c) r
     | Rejected e => onRejected prefix key dispatch e
     end)%list.
Proof.
  intros Hpf Hu Ho.
  rewrite (passes_validation _ pf c w0 Hpf (yields_function _ _ _ Hu)).
  rewrite (issue_run (with_defaults c) url options Hu Ho).
  reflexivity.
Qed.

End Invocation.

(** ** Exactly one request action, before any network activity *)

Lemma typed_request_success s key result :
  typed (s ++ "_REQUEST") (success_of s key result) = false.
Proof. unfold typed. simpl. rewrite eqb_append. reflexivity. Qed.

Lemma typed_request_failure s key error :
  typed (s ++ "_REQUEST") (failure_of s key error) = false.
Proof. unfold typed. simpl. rewrite eqb_append. reflexivity. Qed.

Lemma typed_request_request s key :
  typed (s ++ "_REQUEST") (request_of s key) = true.
Proof. unfold typed. simpl. apply String.eqb_refl. Qed.

Lemma count_request_after s key (w : list event) :
  Forall (after_request s key) w -> count (s ++ "_REQUEST") w = 0.
Proof.
  intros H. apply count_zero. revert H. apply Forall_impl.
  intros e. destruct e as [a| | | | | | | | |]; simpl;
    try (intros; exact I).
  intros [[r ->]|[x ->]].
  - apply typed_request_success.
  - apply typed_request_failure.
Qed.

(** C1.  With a string prefix [s] and a configuration whose [fetchURLFunc]
    is a function, the thunk dispatches the request action
    [{type: s + '_REQUEST', key}] right after [paramsFunc] has returned and
    before anything else: the next thing it does is to evaluate
    [fetchURLFunc], no network activity comes before the request action, and
    the whole invocation dispatches exactly one action of the request type.
    The callbacks may throw, and may invoke the capability. *)
Theorem C1_request_first_and_once :
  forall (network : value -> value -> promise response)
         (returns : value -> value) (s : string) (key : value)
         (pf : callback -> M params) (c : config) (w0 : list event),
    let capability :=
      dispatchSuccessAction (Plain (VStr s)) key (store returns) in
    let run :=
      Fetcher (transport network) (Plain (VStr s)) (Func pf) key
        (store returns) in
    pf capability = (Normal (Object c), w0) ->
    typeof (fetchURLFunc c) = "function" ->
    via capability w0 ->
    config_via capability c ->
    (exists rest,
       events run =
       (CallParamsFunc :: w0 ++
        Dispatch (VObj [("type", VStr (s ++ "_REQUEST")); ("key", key)]) ::
        CallFetchURLFunc key :: rest)%list) /\
    filter network_activity (CallParamsFunc :: w0) = [] /\
    count (s ++ "_REQUEST") (events run) = 1.
Proof.
  intros network returns s key pf c w0 capability run Hpf Hurl Hw0 Hc.
  subst capability run.
  pose proof (passes_validation returns s key
                (transport network) pf c w0 Hpf Hurl) as Hrun.
  assert (Hafter : Forall (after_request s key)
            (events (issue (transport network) (Plain (VStr s)) key
                       (store returns) (with_defaults c)))).
  { apply issue_after_request. apply with_defaults_via, Hc. }
  destruct (issue_begins returns s key (transport network) (with_defaults c)
              Hurl) as [rest Hrest].
  pose proof (via_success returns s key w0 Hw0) as Hsuccess.
  repeat split.
  - exists rest. rewrite Hrun. simpl. rewrite Hrest. reflexivity.
  - simpl. clear - Hsuccess.
    induction Hsuccess as [|e w [r ->] _ IH]; simpl; [reflexivity|exact IH].
  - rewrite Hrun. simpl events.
    change (CallParamsFunc :: w0 ++ Dispatch (request_of s key) ::
              events (issue (transport network) (Plain (VStr s)) key
                        (store returns) (with_defaults c)))%list
      with ([CallParamsFunc] ++ w0 ++ [Dispatch (request_of s key)] ++
              events (issue (transport network) (Plain (VStr s)) key
                        (store returns) (with_defaults c)))%list.
    rewrite !count_app.
    rewrite (count_request_after s key w0)
      by (apply via_after_request with (returns := returns); exact Hw0).
    rewrite (count_request_after s key _ Hafter).
    unfold count. simpl. rewrite typed_request_request. reflexivity.
Qed.

Lemma friends_url_silent (v : value) : events (friends_url v) = [].
Proof. unfold friends_url. destruct (ToString v); reflexivity. Qed.

Lemma C1_witness :
  let run :=
    Fetcher (transport friends_network) (Plain (VStr "FETCH_FRIENDS"))
      (Func deferring_params) (VStr "alice") (store same) in
  (exists rest,
     events run =
     (CallParamsFunc :: [] ++
      Dispatch (VObj [("type", VStr ("FETCH_FRIENDS" ++ "_REQUEST"));
                      ("key", VStr "alice")]) ::
      CallFetchURLFunc (VStr "alice") :: rest)%list) /\
  filter network_activity [CallParamsFunc] = [] /\
  count ("FETCH_FRIENDS" ++ "_REQUEST") (events run) = 1.
Proof.
  eapply (C1_request_first_and_once friends_network same "FETCH_FRIENDS"
            (VStr "alice") deferring_params).
  - reflexivity.
  - reflexivity.
  - constructor.
  - repeat split; simpl; try exact I.
    + intros v. rewrite friends_url_silent. constructor.
    + intros v. unfold via. apply Forall_forall. intros e He.
      exists v. exact He.
Defined.


(** ** A successful fetch without [deferredSuccess] *)

Lemma typed_success_success s key result :
  typed (s ++ "_SUCCESS") (success_of s key result) = true.
Proof. unfold typed. simpl. apply String.eqb_refl. Qed.

Lemma typed_success_request s key :
  typed (s ++ "_SUCCESS") (request_of s key) = false.
Proof. unfold typed. simpl. rewrite eqb_append. reflexivity. Qed.

(** C2.  With a string prefix [s], callbacks that only return, a [fetch]
    that is fulfilled with a response, a body method (the one
    [responseType] names) that is fulfilled with [decoded], and no
    [deferredSuccess]: the thunk calls [parseResponse(decoded)] and
    dispatches [{type: s + '_SUCCESS', key, result}] with the value that
    call returned; it is the only success action, and the promise is
    fulfilled.  In the friends scenario the actions dispatched are the
    request action, then the success action carrying [["bob","carol"]]. *)
Theorem C2_success_once_with_parsed_result :
  (forall (network : value -> value -> promise response)
          (returns : value -> value) (s : string) (key : value)
          (pf : callback -> M params) (c : config)
          (url options : value) (r : response) (m : bodyMethod)
          (decoded parsed : value),
     let run :=
       Fetcher (transport network) (Plain (VStr s)) (Func pf) key
         (store returns) in
     pf (dispatchSuccessAction (Plain (VStr s)) key (store returns)) =
       ret (Object c) ->
     yields (fetchURLFunc c) key url ->
     yields (fetchOptionsFunc (with_defaults c)) key options ->
     network url options = Fulfilled r ->
     selects (responseType (with_defaults c)) m ->
     body r m = Fulfilled decoded ->
     deferredSuccess c = Plain VUndefined ->
     yields (parseResponse (with_defaults c)) decoded parsed ->
     run =
     (Normal (ReturnsPromise (Fulfilled VUndefined)),
      [CallParamsFunc;
       Dispatch (VObj [("type", VStr (s ++ "_REQUEST")); ("key", key)]);
       CallFetchURLFunc key;
       CallFetchOptionsFunc key;
       CallFetch url options;
       CallBody m;
       CallParseResponse decoded;
       Dispatch (VObj [("type", VStr (s ++ "_SUCCESS")); ("key", key);
                       ("result", parsed)])]) /\
     count (s ++ "_SUCCESS") (events run) = 1) /\
  dispatched
    (events
       (Fetcher (transport friends_network) (Plain (VStr "FETCH_FRIENDS"))
          (Func friends_params) (VStr "alice") (store same))) =
  [VObj [("type", VStr "FETCH_FRIENDS_REQUEST"); ("key", VStr "alice")];
   VObj [("type", VStr "FETCH_FRIENDS_SUCCESS"); ("key", VStr "alice");
         ("result", VArr [VStr "bob"; VStr "carol"])]].
Proof.
  split; [|reflexivity].
  intros network returns s key pf c url options r m decoded parsed run
    Hpf Hu Ho Hnet Hm Hbody Hd Hp.
  assert (Hrun : run =
    (Normal (ReturnsPromise (Fulfilled VUndefined)),
     [CallParamsFunc; Dispatch (request_of s key); CallFetchURLFunc key;
      CallFetchOptionsFunc key; CallFetch url options; CallBody m;
      CallParseResponse decoded; Dispatch (success_of s key parsed)])).
  { subst run.
    rewrite (issued_run network returns s key pf c [] url options Hpf Hu Ho).
    rewrite Hnet.
    rewrite (onResponse_selected returns s key (with_defaults c) r m Hm).
    rewrite Hbody.
    rewrite (onValue_direct returns s key (with_defaults c) decoded parsed);
      [reflexivity| |exact Hp].
    simpl. rewrite Hd. reflexivity. }
  split; [exact Hrun|].
  rewrite Hrun. unfold count. simpl.
  rewrite typed_success_request, typed_success_success. reflexivity.
Qed.

Lemma C2_witness :
  Fetcher (transport friends_network) (Plain (VStr "FETCH_FRIENDS"))
    (Func friends_params) (VStr "alice") (store same) =
  (Normal (ReturnsPromise (Fulfilled VUndefined)),
   [CallParamsFunc;
    Dispatch (VObj [("type", VStr ("FETCH_FRIENDS" ++ "_REQUEST"));
                    ("key", VStr "alice")]);
    CallFetchURLFunc (VStr "alice");
    CallFetchOptionsFunc (VStr "alice");
    CallFetch (VStr "/api/alice/friends/") (VObj [("method", VStr "GET")]);
    CallBody Json;
    CallParseResponse friends;
    Dispatch (VObj [("type", VStr ("FETCH_FRIENDS" ++ "_SUCCESS"));
                    ("key", VStr "alice"); ("result", friends)])]) /\
  count ("FETCH_FRIENDS" ++ "_SUCCESS")
    (events
       (Fetcher (transport friends_network) (Plain (VStr "FETCH_FRIENDS"))
          (Func friends_params) (VStr "alice") (store same))) = 1.
Proof.
  apply (proj1 C2_success_once_with_parsed_result friends_network same
           "FETCH_FRIENDS" (VStr "alice") friends_params friends_config
           (VStr "/api/alice/friends/") (VObj [("method", VStr "GET")])
           friends_response Json friends friends).
  - reflexivity.
  - eexists. split; reflexivity.
  - eexists. split; reflexivity.
  - reflexivity.
  - exists "json". split; reflexivity.
  - reflexivity.
  - reflexivity.
  - eexists. split; reflexivity.
Defined.


(** ** A fetch or a decoding that fails *)

Lemma typed_append s a b rest :
  typed (s ++ a) (VObj (("type", VStr (s ++ b)) :: rest)) = (b =? a).
Proof. unfold typed. simpl. apply eqb_append. Qed.

(** Counting the actions of a type in an explicit event list. *)
Ltac count_actions :=
  unfold count, request_of, success_of, failure_of; simpl;
  rewrite ?typed_append; reflexivity.

(** C3.  With a string prefix [s] and callbacks that only return: when
    [fetch] is rejected with [error], the thunk dispatches
    [{type: s + '_FAILURE', key, error}] with that very [error] and never
    reads the body; when [fetch] is fulfilled and the body method is
    rejected with [error], it dispatches the same action after reading the
    body.  Either way this is the only failure action, no success action is
    dispatched, and the promise is fulfilled with what [dispatch]
    returned. *)
Theorem C3_failure_once_with_error :
  forall (network : value -> value -> promise response)
         (returns : value -> value) (s : string) (key : value)
         (pf : callback -> M params) (c : config)
         (url options error : value),
    let run :=
      Fetcher (transport network) (Plain (VStr s)) (Func pf) key
        (store returns) in
    let failure :=
      VObj [("type", VStr (s ++ "_FAILURE")); ("key", key);
            ("error", error)] in
    pf (dispatchSuccessAction (Plain (VStr s)) key (store returns)) =
      ret (Object c) ->
    yields (fetchURLFunc c) key url ->
    yields (fetchOptionsFunc (with_defaults c)) key options ->
    (network url options = Rejected error ->
     run =
     (Normal (ReturnsPromise (Fulfilled (returns failure))),
      [CallParamsFunc;
       Dispatch (VObj [("type", VStr (s ++ "_REQUEST")); ("key", key)]);
       CallFetchURLFunc key;
       CallFetchOptionsFunc key;
       CallFetch url options;
       Dispatch failure]) /\
     existsb reads_body (events run) = false /\
     count (s ++ "_FAILURE") (events run) = 1 /\
     count (s ++ "_SUCCESS") (events run) = 0) /\
    (forall (r : response) (m : bodyMethod),
       network url options = Fulfilled r ->
       selects (responseType (with_defaults c)) m ->
       body r m = Rejected error ->
       run =
       (Normal (ReturnsPromise (Fulfilled (returns failure))),
        [CallParamsFunc;
         Dispatch (VObj [("type", VStr (s ++ "_REQUEST")); ("key", key)]);
         CallFetchURLFunc key;
         CallFetchOptionsFunc key;
         CallFetch url options;
         CallBody m;
         Dispatch failure]) /\
       count (s ++ "_FAILURE") (events run) = 1 /\
       count (s ++ "_SUCCESS") (events run) = 0).
Proof.
  intros network returns s key pf c url options error run failure
    Hpf Hu Ho.
  pose proof (issued_run network returns s key pf c [] url options Hpf Hu Ho)
    as Hrun.
  fold run in Hrun. split.
  - intros Hnet. rewrite Hnet in Hrun.
    rewrite onRejected_run in Hrun. simpl in Hrun.
    rewrite Hrun. repeat split.
    all: count_actions.
  - intros r m Hnet Hm Hbody. rewrite Hnet in Hrun.
    rewrite (onResponse_selected returns s key (with_defaults c) r m Hm)
      in Hrun.
    rewrite Hbody, onRejected_run in Hrun. simpl in Hrun.
    rewrite Hrun. repeat split.
    all: count_actions.
Qed.

Lemma C3_witness :
  dispatched
    (events
       (Fetcher (transport reset_network) (Plain (VStr "FETCH_FRIENDS"))
          (Func friends_params) (VStr "alice") (store same))) =
  [VObj [("type", VStr "FETCH_FRIENDS_REQUEST"); ("key", VStr "alice")];
   VObj [("type", VStr "FETCH_FRIENDS_FAILURE"); ("key", VStr "alice");
         ("error", VStr "ECONNRESET")]] /\
  dispatched
    (events
       (Fetcher (transport garbled_network) (Plain (VStr "FETCH_FRIENDS"))
          (Func friends_params) (VStr "alice") (store same))) =
  [VObj [("type", VStr "FETCH_FRIENDS_REQUEST"); ("key", VStr "alice")];
   VObj [("type", VStr "FETCH_FRIENDS_FAILURE"); ("key", VStr "alice");
         ("error", VStr "SyntaxError")]].
Proof.
  split.
  - destruct (C3_failure_once_with_error reset_network same "FETCH_FRIENDS"
                (VStr "alice") friends_params friends_config
                (VStr "/api/alice/friends/") (VObj [("method", VStr "GET")])
                (VStr "ECONNRESET"))
      as [Hrejected _].
    + reflexivity.
    + eexists. split; reflexivity.
    + eexists. split; reflexivity.
    + destruct (Hrejected eq_refl) as [Hrun _]. rewrite Hrun. reflexivity.
  - destruct (C3_failure_once_with_error garbled_network same "FETCH_FRIENDS"
                (VStr "alice") friends_params friends_config
                (VStr "/api/alice/friends/") (VObj [("method", VStr "GET")])
                (VStr "SyntaxError"))
      as [_ Hgarbled].
    + reflexivity.
    + eexists. split; reflexivity.
    + eexists. split; reflexivity.
    + destruct (Hgarbled garbled_response Json eq_refl) as [Hrun _].
      * exists "json". split; reflexivity.
      * reflexivity.
      * rewrite Hrun. reflexivity.
Defined.

(** ** Deferred success *)

(** C4.  With a string prefix [s], a [fetch] fulfilled with a response and a
    body decoded to [v], a configuration whose [deferredSuccess] is the
    function [ds] makes the thunk call [ds(v)] and do nothing more of its
    own: after reading the body its events are the call and whatever [ds]
    causes, [parseResponse] is not called, and the success actions of the
    run are those that [paramsFunc] and [ds] bring about.  The capability
    that [paramsFunc] receives, invoked with [result], dispatches
    [{type: s + '_SUCCESS', key, result}] and nothing else. *)
Theorem C4_deferred_success :
  forall (network : value -> value -> promise response)
         (returns : value -> value) (s : string) (key : value)
         (pf : callback -> M params) (c : config) (w0 : list event)
         (url options : value) (r : response) (m : bodyMethod)
         (v : value) (ds : callback),
    let capability :=
      dispatchSuccessAction (Plain (VStr s)) key (store returns) in
    let run :=
      Fetcher (transport network) (Plain (VStr s)) (Func pf) key
        (store returns) in
    pf capability = (Normal (Object c), w0) ->
    yields (fetchURLFunc c) key url ->
    yields (fetchOptionsFunc (with_defaults c)) key options ->
    network url options = Fulfilled r ->
    selects (responseType (with_defaults c)) m ->
    body r m = Fulfilled v ->
    deferredSuccess c = Func ds ->
    events run =
    (CallParamsFunc :: w0 ++
     [Dispatch (VObj [("type", VStr (s ++ "_REQUEST")); ("key", key)]);
      CallFetchURLFunc key;
      CallFetchOptionsFunc key;
      CallFetch url options;
      CallBody m;
      CallDeferredSuccess v] ++
     events (ds v))%list /\
    count (s ++ "_SUCCESS") (events run) =
      count (s ++ "_SUCCESS") w0 + count (s ++ "_SUCCESS") (events (ds v)) /\
    forall result : value,
      capability result =
      (Normal VUndefined,
       [Dispatch (VObj [("type", VStr (s ++ "_SUCCESS")); ("key", key);
                        ("result", result)])]).
Proof.
  intros network returns s key pf c w0 url options r m v ds capability run
    Hpf Hu Ho Hnet Hm Hbody Hd.
  assert (Hrun : events run =
    (CallParamsFunc :: w0 ++
     [Dispatch (request_of s key); CallFetchURLFunc key;
      CallFetchOptionsFunc key; CallFetch url options; CallBody m;
      CallDeferredSuccess v] ++ events (ds v))%list).
  { subst run capability.
    rewrite (issued_run network returns s key pf c w0 url options Hpf Hu Ho).
    rewrite Hnet.
    rewrite (onResponse_selected returns s key (with_defaults c) r m Hm).
    rewrite Hbody.
    rewrite (onValue_deferred returns s key (with_defaults c) ds v)
      by (simpl; rewrite Hd; reflexivity).
    reflexivity. }
  split; [exact Hrun|]. split; [|intros result; reflexivity].
  rewrite Hrun.
  change (CallParamsFunc :: w0 ++ ?l ++ ?w)%list
    with ([CallParamsFunc] ++ w0 ++ l ++ w)%list.
  rewrite !count_app.
  replace (count (s ++ "_SUCCESS") [CallParamsFunc]) with 0
    by reflexivity.
  match goal with
  | |- context [count ?t (Dispatch ?a :: ?l)] =>
      replace (count t (Dispatch a :: l)) with 0 by (symmetry; count_actions)
  end.
  lia.
Qed.

Lemma C4_witness :
  events
    (Fetcher (transport friends_network) (Plain (VStr "FETCH_FRIENDS"))
       (Func deferring_params) (VStr "alice") (store same)) =
  [CallParamsFunc;
   Dispatch (VObj [("type", VStr "FETCH_FRIENDS_REQUEST");
                   ("key", VStr "alice")]);
   CallFetchURLFunc (VStr "alice");
   CallFetchOptionsFunc (VStr "alice");
   CallFetch (VStr "/api/alice/friends/") (VObj [("method", VStr "GET")]);
   CallBody Json;
   CallDeferredSuccess friends;
   Dispatch (VObj [("type", VStr "FETCH_FRIENDS_SUCCESS");
                   ("key", VStr "alice"); ("result", friends)])].
Proof.
  refine (proj1 (C4_deferred_success friends_network same "FETCH_FRIENDS"
                   (VStr "alice") deferring_params _ []
                   (VStr "/api/alice/friends/")
                   (VObj [("method", VStr "GET")])
                   friends_response Json friends
                   (dispatchSuccessAction (Plain (VStr "FETCH_FRIENDS"))
                      (VStr "alice") (store same))
                   _ _ _ _ _ _ _)).
  - reflexivity.
  - eexists. split; reflexivity.
  - eexists. split; reflexivity.
  - reflexivity.
  - exists "json". split; reflexivity.
  - reflexivity.
  - reflexivity.
Defined.

(** ** A response type that is no body method *)

(** C10, the claim as stated fails: [bytes] is none of the five names,
    yet on a response that has a method [bytes] the body is decoded, the
    success action is dispatched and the promise is fulfilled. *)
Lemma C10_counterexample :
  method_of_name "bytes" = None /\
  Fetcher (transport platform_network) (Plain (VStr "FETCH_FRIENDS"))
    (Func bytes_params) (VStr "alice") (store same) =
  (Normal (ReturnsPromise (Fulfilled VUndefined)),
   [CallParamsFunc;
    Dispatch (VObj [("type", VStr "FETCH_FRIENDS_REQUEST");
                    ("key", VStr "alice")]);
    CallFetchURLFunc (VStr "alice");
    CallFetchOptionsFunc (VStr "alice");
    CallFetch (VStr "/api/alice/friends/") (VObj [("method", VStr "GET")]);
    CallProperty (Named "bytes");
    CallParseResponse (VObj []);
    Dispatch (VObj [("type", VStr "FETCH_FRIENDS_SUCCESS");
                    ("key", VStr "alice"); ("result", VObj [])])]).
Proof. split; reflexivity. Qed.

(** C10, amended.  With a string prefix [s] and callbacks that only return,
    a configuration whose [responseType] is a string other than the five
    method names passes validation: the request action is dispatched,
    [fetch] is called and the thunk returns a promise.  When the response
    that arrives has no property of that name that can be called, the
    handler throws, so that promise is rejected with a TypeError; no failure
    action is dispatched and no diagnostic is written. *)
Theorem C10_unknown_response_type_rejects :
  forall (network : value -> value -> promise response)
         (returns : value -> value) (s : string) (key : value)
         (pf : callback -> M params) (c : config)
         (url options : value) (r : response) (name : string),
    let run :=
      Fetcher (transport network) (Plain (VStr s)) (Func pf) key
        (store returns) in
    pf (dispatchSuccessAction (Plain (VStr s)) key (store returns)) =
      ret (Object c) ->
    yields (fetchURLFunc c) key url ->
    yields (fetchOptionsFunc (with_defaults c)) key options ->
    network url options = Fulfilled r ->
    responseType c = Plain (VStr name) ->
    method_of_name name = None ->
    (exists q rest,
       run =
       (Normal (ReturnsPromise q),
        [CallParamsFunc;
         Dispatch (VObj [("type", VStr (s ++ "_REQUEST")); ("key", key)]);
         CallFetchURLFunc key;
         CallFetchOptionsFunc key;
         CallFetch url options] ++ rest)%list) /\
    (other r (Named name) = NotCallable ->
     run =
     (Normal (ReturnsPromise (Rejected TypeError)),
      [CallParamsFunc;
       Dispatch (VObj [("type", VStr (s ++ "_REQUEST")); ("key", key)]);
       CallFetchURLFunc key;
       CallFetchOptionsFunc key;
       CallFetch url options]) /\
     count (s ++ "_FAILURE") (events run) = 0).
Proof.
  intros network returns s key pf c url options r name run
    Hpf Hu Ho Hnet Htype Hname.
  pose proof (issued_run network returns s key pf c [] url options Hpf Hu Ho)
    as Hissued.
  fold run in Hissued. rewrite Hnet in Hissued. split.
  - rewrite Hissued. eexists. eexists. reflexivity.
  - intros Hother.
    assert (Hrun : run =
      (Normal (ReturnsPromise (Rejected TypeError)),
       [CallParamsFunc; Dispatch (request_of s key); CallFetchURLFunc key;
        CallFetchOptionsFunc key; CallFetch url options])).
    { rewrite Hissued.
      rewrite (onResponse_unknown returns s key (with_defaults c) r name);
        [reflexivity| |exact Hname|exact Hother].
      simpl. rewrite Htype. reflexivity. }
    split; [exact Hrun|]. rewrite Hrun. count_actions.
Qed.

Lemma C10_witness :
  Fetcher (transport friends_network) (Plain (VStr "FETCH_FRIENDS"))
    (Func xml_params) (VStr "alice") (store same) =
  (Normal (ReturnsPromise (Rejected TypeError)),
   [CallParamsFunc;
    Dispatch (VObj [("type", VStr ("FETCH_FRIENDS" ++ "_REQUEST"));
                    ("key", VStr "alice")]);
    CallFetchURLFunc (VStr "alice");
    CallFetchOptionsFunc (VStr "alice");
    CallFetch (VStr "/api/alice/friends/")
      (VObj [("method", VStr "GET")])]).
Proof.
  refine (proj1 (proj2 (C10_unknown_response_type_rejects friends_network
                          same "FETCH_FRIENDS" (VStr "alice") xml_params _
                          (VStr "/api/alice/friends/")
                          (VObj [("method", VStr "GET")])
                          friends_response "xml" _ _ _ _ _ _) _)).
  - reflexivity.
  - eexists. split; reflexivity.
  - eexists. split; reflexivity.
  - reflexivity.
  - reflexivity.
  - reflexivity.
  - reflexivity.
Defined.

(** ** Validation *)

Lemma properties_cases (r : params) :
  properties r = throw TypeError \/ exists c, properties r = ret c.
Proof.
  destruct r as [c|v]; [right; exists c; reflexivity|].
  destruct v; simpl; eauto.
Qed.

Lemma destructure_properties (r : params) (c : config) :
  properties r = ret c -> destructure r = ret (with_defaults c).
Proof. intros H. unfold destructure. rewrite H. reflexivity. Qed.

Lemma fails_validation (prefix : jsval source) (c : config) :
  typeof prefix <> "string" \/ typeof (fetchURLFunc c) <> "function" ->
  negb (typeof prefix =? "string") ||
  negb (typeof (fetchURLFunc (with_defaults c)) =? "function") = true.
Proof.
  simpl. intros [H|H]; apply String.eqb_neq in H; rewrite H; simpl;
    [reflexivity|apply orb_true_r].
Qed.

(** The run of an invocation that fails the test of line 36. *)
Lemma rejected_run fetch (prefix : jsval source) (pf : callback -> M params)
    key (dispatch : callback) r c w0 :
  pf (dispatchSuccessAction prefix key dispatch) = (Normal r, w0) ->
  properties r = ret c ->
  typeof prefix <> "string" \/ typeof (fetchURLFunc c) <> "function" ->
  Fetcher fetch prefix (Func pf) key dispatch =
  match validation_message prefix (fetchURLFunc c) with
  | (Normal message, _) =>
      (Normal ReturnsUndefined,
       CallParamsFunc :: w0 ++ [ConsoleError message])%list
  | (Throw e, _) => (Throw e, (CallParamsFunc :: w0 ++ [])%list)
  end.
Proof.
  intros Hpf Hr Hbad. unfold Fetcher.
  rewrite (bind_normal _ _ r (CallParamsFunc :: w0))
    by (simpl; rewrite Hpf; reflexivity).
  rewrite (destructure_properties r c Hr), bind_ret.
  rewrite (fails_validation prefix c Hbad).
  change (fetchURLFunc (with_defaults c)) with (fetchURLFunc c).
  unfold validation_message.
  destruct (ToString_js prefix) as [shown|]; reflexivity.
Qed.

(** C5, the claim as stated fails: a [paramsFunc] that is not a function
    makes the thunk throw a TypeError, and nothing is logged. *)
Lemma C5_counterexample :
  Fetcher (transport friends_network) (Plain (VStr "FETCH_FRIENDS"))
    (Plain VUndefined) (VStr "alice") (store same) = (Throw TypeError, []) /\
  ~ exists (out : returned) (w : list event),
      Fetcher (transport friends_network) (Plain (VStr "FETCH_FRIENDS"))
        (Plain VUndefined) (VStr "alice") (store same) = (Normal out, w).
Proof.
  split; [reflexivity|]. intros (out & w & H). discriminate H.
Qed.

(** C5, amended.  When [paramsFunc] is a function that returns something
    other than [undefined] and [null], and the prefix can be converted to a
    string: if the prefix is not a string or [fetchURLFunc] is not a
    function, the thunk does not throw; after [paramsFunc] it writes one
    diagnostic with [console.error] and returns [undefined]. *)
Theorem C5_soft_validation :
  forall (fetch : value -> value -> M (promise response))
         (prefix : jsval source) (pf : callback -> M params) (key : value)
         (dispatch : callback) (r : params) (c : config)
         (w0 : list event) (shown : string),
    pf (dispatchSuccessAction prefix key dispatch) = (Normal r, w0) ->
    properties r = ret c ->
    ToString_js prefix = Some shown ->
    typeof prefix <> "string" \/ typeof (fetchURLFunc c) <> "function" ->
    Fetcher fetch prefix (Func pf) key dispatch =
    (Normal ReturnsUndefined,
     CallParamsFunc :: w0 ++
     [ConsoleError
        ("Fetcher requires string `actionPrefix` " ++
         " and function `fetchURLFunc` to be " ++
         "specified in paramsFunc; got " ++
         shown ++ " (type " ++
         typeof prefix ++ ") and (type " ++
         typeof (fetchURLFunc c) ++ "), respectively")])%list.
Proof.
  intros fetch prefix pf key dispatch r c w0 shown Hpf Hr Hshown Hbad.
  rewrite (rejected_run fetch prefix pf key dispatch r c w0 Hpf Hr Hbad).
  unfold validation_message. rewrite Hshown. reflexivity.
Qed.

Lemma C5_witness :
  Fetcher (transport friends_network) (Plain (VNum 5)) (Func empty_params)
    (VStr "alice") (store same) =
  (Normal ReturnsUndefined,
   [CallParamsFunc;
    ConsoleError
      ("Fetcher requires string `actionPrefix` " ++
       " and function `fetchURLFunc` to be " ++
       "specified in paramsFunc; got " ++
       "5" ++ " (type " ++ "number" ++ ") and (type " ++
       "undefined" ++ "), respectively")]).
Proof.
  apply (C5_soft_validation (transport friends_network) (Plain (VNum 5))
           empty_params (VStr "alice") (store same)
           (NotObject (VObj [])) (of_value (VObj [])) [] "5").
  - reflexivity.
  - reflexivity.
  - reflexivity.
  - left. discriminate.
Defined.

(** C6.  When [paramsFunc] returns and the prefix is not a string, or what
    [paramsFunc] returned has no function [fetchURLFunc], the thunk itself
    dispatches nothing and starts no network activity: beyond the call of
    [paramsFunc], the events of the run are at most one diagnostic.  With a
    [paramsFunc] that causes no event, no action is dispatched and there is
    no network activity at all. *)
Theorem C6_no_notification_on_invalid_input :
  forall (fetch : value -> value -> M (promise response))
         (prefix : jsval source) (pf : callback -> M params) (key : value)
         (dispatch : callback) (r : params) (w0 : list event),
    let run := Fetcher fetch prefix (Func pf) key dispatch in
    pf (dispatchSuccessAction prefix key dispatch) = (Normal r, w0) ->
    (typeof prefix <> "string" \/
     forall c, properties r = ret c ->
               typeof (fetchURLFunc c) <> "function") ->
    (exists tail,
       events run = (CallParamsFunc :: w0 ++ tail)%list /\
       (tail = [] \/ exists message, tail = [ConsoleError message])) /\
    (w0 = [] ->
     dispatched (events run) = [] /\
     filter network_activity (events run) = []).
Proof.
  intros fetch prefix pf key dispatch r w0 run Hpf Hbad.
  assert (Htail : exists tail,
            events run = (CallParamsFunc :: w0 ++ tail)%list /\
            (tail = [] \/ exists message, tail = [ConsoleError message])).
  { subst run. destruct (properties_cases r) as [Hr|[c Hr]].
    - exists []. split; [|left; reflexivity].
      unfold Fetcher.
      rewrite (bind_normal _ _ r (CallParamsFunc :: w0))
        by (simpl; rewrite Hpf; reflexivity).
      unfold destructure. rewrite Hr. reflexivity.
    - rewrite (rejected_run fetch prefix pf key dispatch r c w0 Hpf Hr).
      + destruct (validation_message prefix (fetchURLFunc c))
          as [[message|e] w].
        * exists [ConsoleError message]. split; [reflexivity|].
          right. exists message. reflexivity.
        * exists []. split; [reflexivity|left; reflexivity].
      + destruct Hbad as [H|H]; [left; exact H|right; exact (H c Hr)]. }
  split; [exact Htail|].
  intros ->. destruct Htail as (tail & -> & [->|[message ->]]);
    split; reflexivity.
Qed.

Lemma C6_witness :
  dispatched
    (events
       (Fetcher (transport friends_network) (Plain (VStr "FETCH_FRIENDS"))
          (Func empty_params) (VStr "alice") (store same))) = [] /\
  filter network_activity
    (events
       (Fetcher (transport friends_network) (Plain (VStr "FETCH_FRIENDS"))
          (Func empty_params) (VStr "alice") (store same))) = [].
Proof.
  refine (proj2 (C6_no_notification_on_invalid_input
                   (transport friends_network)
                   (Plain (VStr "FETCH_FRIENDS")) empty_params
                   (VStr "alice") (store same) (NotObject (VObj [])) []
                   _ _) _).
  - reflexivity.
  - right. intros c Hc. injection Hc as <-. discriminate.
  - reflexivity.
Defined.


(** ** The defaults of the configuration *)





(** ** The key of the actions *)

Lemma carries_dispatched key (w : list event) :
  Forall (carries key) w ->
  Forall (fun action => field "key" action = key) (dispatched w).
Proof.
  induction 1 as [|e w He _ IH]; simpl; [constructor|].
  destruct e; simpl in *; try exact IH. constructor; assumption.
Qed.

Lemma after_request_carries s key e :
  after_request s key e -> carries key e.
Proof.
  destruct e; simpl; try (intros; exact I).
  intros [[r ->]|[x ->]]; reflexivity.
Qed.

(** Whatever the prefix, the capability dispatches at most one action, and
    that action has the key of the invocation. *)
Lemma via_carries (prefix : jsval source) key returns (w : list event) :
  via (dispatchSuccessAction prefix key (store returns)) w ->
  Forall (carries key) w.
Proof.
  unfold via. apply Forall_impl. intros e [r Hin].
  unfold dispatchSuccessAction, successAction, concat in Hin.
  destruct (ToString_js prefix) as [shown|]; simpl in Hin.
  - destruct Hin as [<-|[]]. reflexivity.
  - destruct Hin.
Qed.

Lemma typeof_value_not_function (v : value) : typeof_value v <> "function".
Proof. destruct v; discriminate. Qed.

Lemma typeof_string (prefix : jsval source) :
  typeof prefix = "string" -> exists s, prefix = Plain (VStr s).
Proof.
  destruct prefix as [v|src]; [|discriminate].
  destruct v; try discriminate. intros _. eexists. reflexivity.
Qed.

Lemma outcome_call {A B} e (g : A -> M B) arg b :
  outcome (call e (Func g) arg) = Normal b -> outcome (g arg) = Normal b.
Proof. simpl. destruct (g arg) as [[out|x] w]; simpl; intros H; exact H. Qed.

Lemma destructure_silent (r : params) : events (destructure r) = [].
Proof.
  destruct (properties_cases r) as [H|[c H]]; unfold destructure;
    rewrite H; reflexivity.
Qed.

(** A configuration that passes line 36 came from an object. *)
Lemma destructure_function (r : params) (cfg : config) :
  outcome (destructure r) = Normal cfg ->
  typeof (fetchURLFunc cfg) = "function" ->
  exists c, r = Object c /\ cfg = with_defaults c.
Proof.
  destruct r as [c|v].
  - intros [= <-] _. exists c. split; reflexivity.
  - intros H Hf. exfalso.
    destruct v; simpl in H; try discriminate H; injection H as <-;
      exact (typeof_value_not_function _ Hf).
Qed.

(** C8.  Provided the callbacks reach the store only through the capability
    they were handed, every action that one invocation with key [key]
    dispatches - the request action, a success action dispatched by the
    thunk or through the capability, a failure action - has [key] as its
    [key] property.  This holds for every prefix, every [paramsFunc], every
    outcome of the network, and whether or not a callback throws. *)
Theorem C8_same_key :
  forall (network : value -> value -> promise response)
         (returns : value -> value) (prefix : jsval source)
         (paramsFunc : jsval (callback -> M params)) (key : value),
    let capability := dispatchSuccessAction prefix key (store returns) in
    (forall pf, paramsFunc = Func pf ->
       via capability (events (pf capability)) /\
       forall c, outcome (pf capability) = Normal (Object c) ->
                 config_via capability c) ->
    Forall (fun action => field "key" action = key)
      (dispatched
         (events
            (Fetcher (transport network) prefix paramsFunc key
               (store returns)))).
Proof.
  intros network returns prefix paramsFunc key capability Hcallbacks.
  apply carries_dispatched. unfold Fetcher. fold capability.
  apply Forall_bind.
  - apply Forall_call; [exact I|]. intros pf Hpf.
    destruct (Hcallbacks pf Hpf) as [Hvia _].
    exact (via_carries prefix key returns _ Hvia).
  - intros r Hr. apply Forall_bind.
    { rewrite destructure_silent. constructor. }
    intros cfg Hcfg.
    destruct (negb (typeof prefix =? "string") ||
              negb (typeof (fetchURLFunc cfg) =? "function")) eqn:Hvalid.
    + apply Forall_bind.
      * unfold validation_message.
        destruct (ToString_js prefix); constructor.
      * intros message _. repeat constructor.
    + apply orb_false_elim in Hvalid as [Hs Hf].
      apply negb_false_iff, String.eqb_eq in Hs, Hf.
      destruct (typeof_string prefix Hs) as [s ->].
      destruct (destructure_function r cfg Hcfg Hf) as (c & -> & ->).
      destruct paramsFunc as [v|pf]; [discriminate Hr|].
      destruct (Hcallbacks pf eq_refl) as [_ Hconfig].
      specialize (Hconfig c (outcome_call _ _ _ _ Hr)).
      rewrite requestAction_run, bind_ret.
      apply Forall_bind; [repeat constructor|].
      intros _ _.
      eapply Forall_impl; [apply after_request_carries|].
      apply issue_after_request. apply with_defaults_via. exact Hconfig.
Qed.

Lemma C8_witness :
  Forall (fun action => field "key" action = VStr "alice")
    (dispatched
       (events
          (Fetcher (transport friends_network)
             (Plain (VStr "FETCH_FRIENDS")) (Func deferring_params)
             (VStr "alice") (store same)))).
Proof.
  apply (C8_same_key friends_network same (Plain (VStr "FETCH_FRIENDS"))
           (Func deferring_params) (VStr "alice")).
  intros pf [= <-]. split; [constructor|].
  intros c [= <-]. repeat split; simpl; try exact I.
  - intros v. rewrite friends_url_silent. constructor.
  - intros v. unfold via. apply Forall_forall. intros e He.
    exists v. exact He.
Defined.


(** ** What the thunk returns *)

Lemma then_run {A} (p : promise A) onF onR :
  then_ p onF onR =
  (Normal (resolve (outcome
     match p with Fulfilled a => onF a | Rejected e => onR e end)),
   events match p with Fulfilled a => onF a | Rejected e => onR e end).
Proof.
  unfold then_. destruct p as [a|e].
  - destruct (onF a); reflexivity.
  - destruct (onR e); reflexivity.
Qed.

Lemma call_returns e (f : jsval callback) arg :
  returns_on f arg -> exists out w, call e f arg = (Normal out, e :: w).
Proof.
  intros (g & -> & out & w & Hrun).
  exists out, w. simpl. rewrite Hrun. reflexivity.
Qed.

Lemma returns_function (f : jsval callback) arg :
  returns_on f arg -> typeof f = "function".
Proof. intros (g & -> & _). reflexivity. Qed.

Lemma onRejected_concludes returns s key error :
  fulfils_concluded s key
    (onRejected (Plain (VStr s)) key (store returns) error).
Proof.
  rewrite onRejected_run. eexists. split; [reflexivity|].
  constructor. right. exists error. reflexivity.
Qed.

Lemma onValue_concludes returns s key cfg v :
  (deferredSuccess cfg = Plain VUndefined /\ total (parseResponse cfg)) \/
  total (deferredSuccess cfg) ->
  fulfils_concluded s key
    (onValue (Plain (VStr s)) key (store returns) cfg v).
Proof.
  intros [[Hd Hp]|Hds].
  - destruct (call_returns (CallParseResponse v) _ v (Hp v))
      as (parsed & w & Hrun).
    unfold onValue. rewrite Hd. simpl negb. cbv iota.
    rewrite (bind_normal _ _ parsed _ Hrun).
    exists VUndefined. split; [reflexivity|].
    simpl. apply Exists_cons_tl, Exists_app. right.
    constructor. left. exists parsed. reflexivity.
  - destruct (Hds v) as (ds & Hd & out & w & Hrun).
    rewrite (onValue_deferred returns s key cfg ds v Hd). rewrite Hrun.
    exists VUndefined. split; [reflexivity|].
    constructor. exact I.
Qed.

Lemma onResponse_concludes returns s key cfg r m :
  selects (responseType cfg) m ->
  (deferredSuccess cfg = Plain VUndefined /\ total (parseResponse cfg)) \/
  total (deferredSuccess cfg) ->
  fulfils_concluded s key
    (onResponse (Plain (VStr s)) key (store returns) cfg r).
Proof.
  intros Hm Hcfg.
  rewrite (onResponse_selected returns s key cfg r m Hm).
  assert (H : fulfils_concluded s key
                match body r m with
                | Fulfilled v =>
                    onValue (Plain (VStr s)) key (store returns) cfg v
                | Rejected e =>
                    onRejected (Plain (VStr s)) key (store returns) e
                end).
  { destruct (body r m) as [v|e].
    - apply onValue_concludes, Hcfg.
    - apply onRejected_concludes. }
  destruct H as (v & Hv & Hex).
  exists v. split; [exact Hv|]. apply Exists_cons_tl, Hex.
Qed.

Lemma issue_concludes network returns s key cfg m :
  returns_on (fetchURLFunc cfg) key ->
  returns_on (fetchOptionsFunc cfg) key ->
  selects (responseType cfg) m ->
  (deferredSuccess cfg = Plain VUndefined /\ total (parseResponse cfg)) \/
  total (deferredSuccess cfg) ->
  exists v,
    outcome (issue (transport network) (Plain (VStr s)) key (store returns)
               cfg) = Normal (ReturnsPromise (Fulfilled v)) /\
    Exists (concludes s key)
      (events (issue (transport network) (Plain (VStr s)) key
                 (store returns) cfg)).
Proof.
  intros Hu Ho Hm Hcfg. unfold issue.
  destruct (call_returns (CallFetchURLFunc key) _ key Hu)
    as (url & wu & Hurl).
  destruct (call_returns (CallFetchOptionsFunc key) _ key Ho)
    as (options & wo & Hoptions).
  rewrite (bind_normal _ _ url _ Hurl).
  rewrite (bind_normal _ _ options _ Hoptions).
  rewrite (bind_normal _ _ (network url options) [CallFetch url options])
    by reflexivity.
  rewrite then_run.
  assert (H : fulfils_concluded s key
                match network url options with
                | Fulfilled r =>
                    onResponse (Plain (VStr s)) key (store returns) cfg r
                | Rejected e =>
                    onRejected (Plain (VStr s)) key (store returns) e
                end).
  { destruct (network url options) as [r|e].
    - apply (onResponse_concludes returns s key cfg r m Hm Hcfg).
    - apply onRejected_concludes. }
  destruct H as (v & Hv & Hex).
  exists v. simpl. rewrite Hv. split; [reflexivity|].
  apply Exists_cons_tl, Exists_app. right.
  apply Exists_cons_tl, Exists_app. right.
  apply Exists_cons_tl. rewrite app_nil_r. exact Hex.
Qed.

(** C9, the claim as stated fails: with a configuration that has no
    [fetchURLFunc], the thunk returns [undefined], not a promise. *)
Lemma C9_counterexample :
  outcome
    (Fetcher (transport friends_network) (Plain (VStr "FETCH_FRIENDS"))
       (Func empty_params) (VStr "alice") (store same)) =
  Normal ReturnsUndefined /\
  forall p : promise value,
    outcome
      (Fetcher (transport friends_network) (Plain (VStr "FETCH_FRIENDS"))
         (Func empty_params) (VStr "alice") (store same)) <>
    Normal (ReturnsPromise p).
Proof. split; [reflexivity|]. intros p H. discriminate H. Qed.

(** C9, amended.  An invocation that fails the validation (and whose prefix
    can be shown in the diagnostic) returns [undefined].  An invocation with
    a string prefix [s] that passes it, whose [fetchURLFunc] and
    [fetchOptionsFunc] return on the key, whose [responseType] names a body method, and
    whose [parseResponse] - or [deferredSuccess], when there is one -
    returns, returns a promise; that promise is fulfilled, and by then the
    run has dispatched the failure or the success action, or has called
    [deferredSuccess]. *)
Theorem C9_returned_value :
  (forall (fetch : value -> value -> M (promise response))
          (prefix : jsval source) (pf : callback -> M params) (key : value)
          (dispatch : callback) (r : params) (c : config)
          (w0 : list event) (shown : string),
     pf (dispatchSuccessAction prefix key dispatch) = (Normal r, w0) ->
     properties r = ret c ->
     ToString_js prefix = Some shown ->
     typeof prefix <> "string" \/ typeof (fetchURLFunc c) <> "function" ->
     outcome (Fetcher fetch prefix (Func pf) key dispatch) =
     Normal ReturnsUndefined) /\
  (forall (network : value -> value -> promise response)
          (returns : value -> value) (s : string) (key : value)
          (pf : callback -> M params) (c : config) (w0 : list event)
          (m : bodyMethod),
     let run :=
       Fetcher (transport network) (Plain (VStr s)) (Func pf) key
         (store returns) in
     pf (dispatchSuccessAction (Plain (VStr s)) key (store returns)) =
       (Normal (Object c), w0) ->
     returns_on (fetchURLFunc c) key ->
     returns_on (fetchOptionsFunc (with_defaults c)) key ->
     selects (responseType (with_defaults c)) m ->
     (deferredSuccess c = Plain VUndefined /\
      total (parseResponse (with_defaults c))) \/
     total (deferredSuccess c) ->
     exists v,
       outcome run = Normal (ReturnsPromise (Fulfilled v)) /\
       Exists (concludes s key) (events run)).
Proof.
  split.
  - intros fetch prefix pf key dispatch r c w0 shown Hpf Hr Hshown Hbad.
    rewrite (rejected_run fetch prefix pf key dispatch r c w0 Hpf Hr Hbad).
    unfold validation_message. rewrite Hshown. reflexivity.
  - intros network returns s key pf c w0 m run Hpf Hu Ho Hm Hcfg.
    subst run.
    rewrite (passes_validation returns s key (transport network) pf c w0
               Hpf (returns_function _ _ Hu)).
    destruct (issue_concludes network returns s key (with_defaults c) m)
      as (v & Hv & Hex); try assumption.
    { destruct Hcfg as [[Hd Hp]|Hds].
      - left. split; [simpl; rewrite Hd; reflexivity|exact Hp].
      - right. intros v'. destruct (Hds v') as (ds & Hd & Hrun).
        exists ds. split; [simpl; rewrite Hd; reflexivity|exact Hrun]. }
    exists v. split; [exact Hv|].
    simpl. apply Exists_cons_tl, Exists_app. right.
    apply Exists_cons_tl, Hex.
Qed.

Lemma C9_witness :
  outcome
    (Fetcher (transport friends_network) (Plain (VNum 5))
       (Func empty_params) (VStr "alice") (store same)) =
  Normal ReturnsUndefined /\
  exists v,
    outcome
      (Fetcher (transport reset_network) (Plain (VStr "FETCH_FRIENDS"))
         (Func friends_params) (VStr "alice") (store same)) =
    Normal (ReturnsPromise (Fulfilled v)) /\
    Exists (concludes "FETCH_FRIENDS" (VStr "alice"))
      (events
         (Fetcher (transport reset_network) (Plain (VStr "FETCH_FRIENDS"))
            (Func friends_params) (VStr "alice") (store same))).
Proof.
  split.
  - apply (proj1 C9_returned_value (transport friends_network)
             (Plain (VNum 5)) empty_params (VStr "alice") (store same)
             (NotObject (VObj [])) (of_value (VObj [])) [] "5").
    + reflexivity.
    + reflexivity.
    + reflexivity.
    + left. discriminate.
  - apply (proj2 C9_returned_value reset_network same "FETCH_FRIENDS"
             (VStr "alice") friends_params friends_config [] Json).
    + reflexivity.
    + exists friends_url. split; [reflexivity|].
      eexists. eexists. reflexivity.
    + exists default_fetchOptionsFunc. split; [reflexivity|].
      eexists. eexists. reflexivity.
    + exists "json". split; reflexivity.
    + left. split; [reflexivity|].
      intros v. exists default_parseResponse. split; [reflexivity|].
      eexists. eexists. reflexivity.
Defined.


(** * Further properties of the thunk *)

(** ** Callbacks that throw before [fetch] is called *)

Lemma bind_throws {A B} (m : M A) (k : A -> M B) e w :
  m = (Throw e, w) -> bind m k = (Throw e, w).
Proof. intros ->. reflexivity. Qed.

Lemma supplied_kept {F} (v : value) (d : jsval F) :
  v <> VUndefined -> or_default (Plain v) d = Plain v.
Proof. destruct v; simpl; congruence. Qed.

(** X1.  When [fetchURLFunc(key)] throws [e], the request action has
    already been dispatched; the thunk throws [e] to its caller, whatever
    [fetch] is it is not called, and no failure action is dispatched. *)
Theorem X1_fetchURLFunc_throws :
  forall (fetch : value -> value -> M (promise response))
         (returns : value -> value) (s : string) (key : value)
         (pf : callback -> M params) (c : config) (w0 : list event)
         (f : callback) (e : value) (w : list event),
    pf (dispatchSuccessAction (Plain (VStr s)) key (store returns)) =
      (Normal (Object c), w0) ->
    fetchURLFunc c = Func f ->
    f key = (Throw e, w) ->
    Fetcher fetch (Plain (VStr s)) (Func pf) key (store returns) =
    (Throw e,
     CallParamsFunc :: w0 ++
     [Dispatch (VObj [("type", VStr (s ++ "_REQUEST")); ("key", key)]);
      CallFetchURLFunc key] ++ w)%list.
Proof.
  intros fetch returns s key pf c w0 f e w Hpf Hf Hthrow.
  rewrite (passes_validation returns s key fetch pf c w0 Hpf)
    by (rewrite Hf; reflexivity).
  unfold issue. simpl fetchURLFunc.
  rewrite (bind_throws _ _ e (CallFetchURLFunc key :: w))
    by (rewrite Hf; simpl; rewrite Hthrow; reflexivity).
  reflexivity.
Qed.

Lemma X1_witness :
  Fetcher (transport friends_network) (Plain (VStr "FETCH_FRIENDS"))
    (Func broken_url_params) (VStr "alice") (store same) =
  (Throw (VStr "no route"),
   [CallParamsFunc;
    Dispatch (VObj [("type", VStr ("FETCH_FRIENDS" ++ "_REQUEST"));
                    ("key", VStr "alice")]);
    CallFetchURLFunc (VStr "alice")]).
Proof.
  refine (X1_fetchURLFunc_throws (transport friends_network) same
            "FETCH_FRIENDS" (VStr "alice") broken_url_params _ []
            (fun _ => throw (VStr "no route")) (VStr "no route") [] _ _ _);
    reflexivity.
Defined.

(** X2.  A [fetchOptionsFunc] that is supplied but is not a function, such
    as [null], is not replaced by the default: after the request action and
    the evaluation of [fetchURLFunc], the thunk throws a TypeError, and
    [fetch] is not called. *)
Theorem X2_fetchOptionsFunc_not_callable :
  forall (fetch : value -> value -> M (promise response))
         (returns : value -> value) (s : string) (key : value)
         (pf : callback -> M params) (c : config) (w0 : list event)
         (f : callback) (url : value) (wu : list event) (v : value),
    pf (dispatchSuccessAction (Plain (VStr s)) key (store returns)) =
      (Normal (Object c), w0) ->
    fetchURLFunc c = Func f ->
    f key = (Normal url, wu) ->
    fetchOptionsFunc c = Plain v ->
    v <> VUndefined ->
    Fetcher fetch (Plain (VStr s)) (Func pf) key (store returns) =
    (Throw TypeError,
     CallParamsFunc :: w0 ++
     [Dispatch (VObj [("type", VStr (s ++ "_REQUEST")); ("key", key)]);
      CallFetchURLFunc key] ++ wu)%list.
Proof.
  intros fetch returns s key pf c w0 f url wu v Hpf Hf Hurl Ho Hv.
  rewrite (passes_validation returns s key fetch pf c w0 Hpf)
    by (rewrite Hf; reflexivity).
  unfold issue. simpl fetchURLFunc. simpl fetchOptionsFunc.
  rewrite (bind_normal _ _ url (CallFetchURLFunc key :: wu))
    by (rewrite Hf; simpl; rewrite Hurl; reflexivity).
  rewrite Ho, (supplied_kept v _ Hv). simpl.
  rewrite app_nil_r. reflexivity.
Qed.

Lemma X2_witness :
  Fetcher (transport friends_network) (Plain (VStr "FETCH_FRIENDS"))
    (Func null_options_params) (VStr "alice") (store same) =
  (Throw TypeError,
   [CallParamsFunc;
    Dispatch (VObj [("type", VStr ("FETCH_FRIENDS" ++ "_REQUEST"));
                    ("key", VStr "alice")]);
    CallFetchURLFunc (VStr "alice")]).
Proof.
  refine (X2_fetchOptionsFunc_not_callable (transport friends_network) same
            "FETCH_FRIENDS" (VStr "alice") null_options_params _ []
            friends_url (VStr "/api/alice/friends/") [] VNull _ _ _ _ _);
    try reflexivity.
  discriminate.
Defined.

(** ** Handlers that throw after the body was decoded *)

(** X3.  When [parseResponse(decoded)] throws [e], the promise the thunk
    returned is rejected with [e]: the rejection handler of line 60 does not
    see it, so the run dispatches the request action and nothing else,
    neither a success nor a failure action. *)
Theorem X3_parseResponse_throws :
  forall (network : value -> value -> promise response)
         (returns : value -> value) (s : string) (key : value)
         (pf : callback -> M params) (c : config)
         (url options : value) (r : response) (m : bodyMethod)
         (decoded : value) (parse : callback) (e : value),
    let run :=
      Fetcher (transport network) (Plain (VStr s)) (Func pf) key
        (store returns) in
    pf (dispatchSuccessAction (Plain (VStr s)) key (store returns)) =
      ret (Object c) ->
    yields (fetchURLFunc c) key url ->
    yields (fetchOptionsFunc (with_defaults c)) key options ->
    network url options = Fulfilled r ->
    selects (responseType (with_defaults c)) m ->
    body r m = Fulfilled decoded ->
    deferredSuccess c = Plain VUndefined ->
    parseResponse c = Func parse ->
    parse decoded = throw e ->
    run =
    (Normal (ReturnsPromise (Rejected e)),
     [CallParamsFunc;
      Dispatch (VObj [("type", VStr (s ++ "_REQUEST")); ("key", key)]);
      CallFetchURLFunc key;
      CallFetchOptionsFunc key;
      CallFetch url options;
      CallBody m;
      CallParseResponse decoded]) /\
    dispatched (events run) =
    [VObj [("type", VStr (s ++ "_REQUEST")); ("key", key)]].
Proof.
  intros network returns s key pf c url options r m decoded parse e run
    Hpf Hu Ho Hnet Hm Hbody Hd Hp Hthrow.
  assert (Hrun : run =
    (Normal (ReturnsPromise (Rejected e)),
     [CallParamsFunc; Dispatch (request_of s key); CallFetchURLFunc key;
      CallFetchOptionsFunc key; CallFetch url options; CallBody m;
      CallParseResponse decoded])).
  { subst run.
    rewrite (issued_run network returns s key pf c [] url options Hpf Hu Ho).
    rewrite Hnet.
    rewrite (onResponse_selected returns s key (with_defaults c) r m Hm).
    rewrite Hbody. unfold onValue. simpl deferredSuccess.
    simpl parseResponse. rewrite Hd, Hp. simpl negb. cbv iota.
    rewrite (bind_throws _ _ e [CallParseResponse decoded])
      by (simpl; rewrite Hthrow; reflexivity).
    reflexivity. }
  split; [exact Hrun|]. rewrite Hrun. reflexivity.
Qed.

Lemma X3_witness :
  dispatched
    (events
       (Fetcher (transport friends_network) (Plain (VStr "FETCH_FRIENDS"))
          (Func failing_parse_params) (VStr "alice") (store same))) =
  [VObj [("type", VStr ("FETCH_FRIENDS" ++ "_REQUEST"));
         ("key", VStr "alice")]].
Proof.
  refine (proj2 (X3_parseResponse_throws friends_network same
                   "FETCH_FRIENDS" (VStr "alice") failing_parse_params _
                   (VStr "/api/alice/friends/")
                   (VObj [("method", VStr "GET")])
                   friends_response Json friends
                   (fun _ => throw (VStr "bad shape")) (VStr "bad shape")
                   _ _ _ _ _ _ _ _ _)).
  - reflexivity.
  - eexists. split; reflexivity.
  - eexists. split; reflexivity.
  - reflexivity.
  - exists "json". split; reflexivity.
  - reflexivity.
  - reflexivity.
  - reflexivity.
  - reflexivity.
Defined.

Lemma typeof_undefined (v : value) :
  v <> VUndefined -> (typeof_value v =? "undefined") = false.
Proof. destruct v; simpl; congruence. Qed.

(** X4.  A [deferredSuccess] that is supplied but is not a function, such
    as [null], still takes the deferred branch of line 54: the call throws a
    TypeError, which rejects the promise; [parseResponse] is not called and
    the run dispatches the request action only. *)
Theorem X4_deferredSuccess_not_callable :
  forall (network : value -> value -> promise response)
         (returns : value -> value) (s : string) (key : value)
         (pf : callback -> M params) (c : config)
         (url options : value) (r : response) (m : bodyMethod)
         (decoded v : value),
    let run :=
      Fetcher (transport network) (Plain (VStr s)) (Func pf) key
        (store returns) in
    pf (dispatchSuccessAction (Plain (VStr s)) key (store returns)) =
      ret (Object c) ->
    yields (fetchURLFunc c) key url ->
    yields (fetchOptionsFunc (with_defaults c)) key options ->
    network url options = Fulfilled r ->
    selects (responseType (with_defaults c)) m ->
    body r m = Fulfilled decoded ->
    deferredSuccess c = Plain v ->
    v <> VUndefined ->
    run =
    (Normal (ReturnsPromise (Rejected TypeError)),
     [CallParamsFunc;
      Dispatch (VObj [("type", VStr (s ++ "_REQUEST")); ("key", key)]);
      CallFetchURLFunc key;
      CallFetchOptionsFunc key;
      CallFetch url options;
      CallBody m]) /\
    dispatched (events run) =
    [VObj [("type", VStr (s ++ "_REQUEST")); ("key", key)]].
Proof.
  intros network returns s key pf c url options r m decoded v run
    Hpf Hu Ho Hnet Hm Hbody Hd Hv.
  assert (Hrun : run =
    (Normal (ReturnsPromise (Rejected TypeError)),
     [CallParamsFunc; Dispatch (request_of s key); CallFetchURLFunc key;
      CallFetchOptionsFunc key; CallFetch url options; CallBody m])).
  { subst run.
    rewrite (issued_run network returns s key pf c [] url options Hpf Hu Ho).
    rewrite Hnet.
    rewrite (onResponse_selected returns s key (with_defaults c) r m Hm).
    rewrite Hbody. unfold onValue. simpl deferredSuccess.
    rewrite Hd, (supplied_kept v _ Hv). simpl typeof.
    rewrite (typeof_undefined v Hv). reflexivity. }
  split; [exact Hrun|]. rewrite Hrun. reflexivity.
Qed.

Lemma X4_witness :
  Fetcher (transport friends_network) (Plain (VStr "FETCH_FRIENDS"))
    (Func null_deferred_params) (VStr "alice") (store same) =
  (Normal (ReturnsPromise (Rejected TypeError)),
   [CallParamsFunc;
    Dispatch (VObj [("type", VStr ("FETCH_FRIENDS" ++ "_REQUEST"));
                    ("key", VStr "alice")]);
    CallFetchURLFunc (VStr "alice");
    CallFetchOptionsFunc (VStr "alice");
    CallFetch (VStr "/api/alice/friends/") (VObj [("method", VStr "GET")]);
    CallBody Json]).
Proof.
  refine (proj1 (X4_deferredSuccess_not_callable friends_network same
                   "FETCH_FRIENDS" (VStr "alice") null_deferred_params _
                   (VStr "/api/alice/friends/")
                   (VObj [("method", VStr "GET")])
                   friends_response Json friends VNull
                   _ _ _ _ _ _ _ _)).
  - reflexivity.
  - eexists. split; reflexivity.
  - eexists. split; reflexivity.
  - reflexivity.
  - exists "json". split; reflexivity.
  - reflexivity.
  - reflexivity.
  - discriminate.
Defined.

(** ** Failures before the validation *)

(** X5.  [paramsFunc] is called before the validation, whatever the prefix:
    when it throws [e] the thunk throws [e], and when it returns [undefined]
    or [null] the destructuring throws a TypeError.  In both cases the thunk
    itself does nothing more: no diagnostic, no action. *)
Theorem X5_paramsFunc_fails :
  forall (fetch : value -> value -> M (promise response))
         (prefix : jsval source) (pf : callback -> M params) (key : value)
         (dispatch : callback) (w0 : list event),
    (forall e : value,
       pf (dispatchSuccessAction prefix key dispatch) = (Throw e, w0) ->
       Fetcher fetch prefix (Func pf) key dispatch =
       (Throw e, CallParamsFunc :: w0)) /\
    (forall v : value,
       pf (dispatchSuccessAction prefix key dispatch) =
         (Normal (NotObject v), w0) ->
       v = VUndefined \/ v = VNull ->
       Fetcher fetch prefix (Func pf) key dispatch =
       (Throw TypeError, CallParamsFunc :: w0)).
Proof.
  intros fetch prefix pf key dispatch w0. split.
  - intros e Hpf. unfold Fetcher.
    apply bind_throws. simpl. rewrite Hpf. reflexivity.
  - intros v Hpf Hv. unfold Fetcher.
    rewrite (bind_normal _ _ (NotObject v) (CallParamsFunc :: w0))
      by (simpl; rewrite Hpf; reflexivity).
    destruct Hv as [-> | ->]; simpl; rewrite app_nil_r; reflexivity.
Qed.

Lemma X5_witness :
  Fetcher (transport friends_network) (Plain (VStr "FETCH_FRIENDS"))
    (Func undefined_params) (VStr "alice") (store same) =
  (Throw TypeError, [CallParamsFunc]).
Proof.
  refine (proj2 (X5_paramsFunc_fails (transport friends_network)
                   (Plain (VStr "FETCH_FRIENDS")) undefined_params
                   (VStr "alice") (store same) []) VUndefined _ _).
  - reflexivity.
  - left. reflexivity.
Defined.

Lemma unshowable_not_string (prefix : jsval source) :
  ToString_js prefix = None -> typeof prefix <> "string".
Proof.
  intros Hnone Hs. destruct (typeof_string prefix Hs) as [s ->].
  discriminate Hnone.
Qed.

(** X6.  A prefix that cannot be converted to a string, such as a symbol,
    fails the validation, but building the diagnostic throws: the thunk
    throws a TypeError and [console.error] is not called. *)
Theorem X6_unshowable_prefix_throws :
  forall (fetch : value -> value -> M (promise response))
         (prefix : jsval source) (pf : callback -> M params) (key : value)
         (dispatch : callback) (r : params) (c : config)
         (w0 : list event),
    ToString_js prefix = None ->
    pf (dispatchSuccessAction prefix key dispatch) = (Normal r, w0) ->
    properties r = ret c ->
    Fetcher fetch prefix (Func pf) key dispatch =
    (Throw TypeError, CallParamsFunc :: w0).
Proof.
  intros fetch prefix pf key dispatch r c w0 Hnone Hpf Hr.
  rewrite (rejected_run fetch prefix pf key dispatch r c w0 Hpf Hr)
    by (left; apply unshowable_not_string, Hnone).
  unfold validation_message. rewrite Hnone. simpl.
  rewrite app_nil_r. reflexivity.
Qed.

Lemma X6_witness :
  Fetcher (transport friends_network) (Plain (VSymbol "friends"))
    (Func friends_params) (VStr "alice") (store same) =
  (Throw TypeError, [CallParamsFunc]).
Proof.
  refine (X6_unshowable_prefix_throws (transport friends_network)
            (Plain (VSymbol "friends")) friends_params (VStr "alice")
            (store same) (Object friends_config) friends_config [] _ _ _);
    reflexivity.
Defined.

(** X7.  The capability is not guarded by the validation.  A [paramsFunc]
    that invokes it with [result] before returning dispatches a success
    action at once, typed with the string form of the prefix; when the
    validation then fails, that action stays the only one dispatched and the
    diagnostic follows it. *)
Theorem X7_capability_before_validation :
  forall (fetch : value -> value -> M (promise response))
         (prefix : jsval source) (shown : string) (key : value)
         (returns : value -> value) (result : value) (r : params)
         (c : config),
    ToString_js prefix = Some shown ->
    properties r = ret c ->
    typeof prefix <> "string" \/ typeof (fetchURLFunc c) <> "function" ->
    exists message,
      Fetcher fetch prefix (Func (eager result r)) key (store returns) =
      (Normal ReturnsUndefined,
       [CallParamsFunc;
        Dispatch (VObj [("type", VStr (shown ++ "_SUCCESS")); ("key", key);
                        ("result", result)]);
        ConsoleError message]).
Proof.
  intros fetch prefix shown key returns result r c Hshown Hr Hbad.
  assert (Hpf : eager result r
                  (dispatchSuccessAction prefix key (store returns)) =
                (Normal r,
                 [Dispatch (VObj [("type", VStr (shown ++ "_SUCCESS"));
                                  ("key", key); ("result", result)])])).
  { unfold eager, dispatchSuccessAction, successAction, concat.
    rewrite Hshown. reflexivity. }
  rewrite (rejected_run fetch prefix (eager result r) key (store returns)
             r c _ Hpf Hr Hbad).
  unfold validation_message. rewrite Hshown.
  eexists. reflexivity.
Qed.

Lemma X7_witness :
  exists message,
    Fetcher (transport friends_network) (Plain VUndefined)
      (Func (eager friends (Object friends_config))) (VStr "alice")
      (store same) =
    (Normal ReturnsUndefined,
     [CallParamsFunc;
      Dispatch (VObj [("type", VStr ("undefined" ++ "_SUCCESS"));
                      ("key", VStr "alice"); ("result", friends)]);
      ConsoleError message]).
Proof.
  refine (X7_capability_before_validation (transport friends_network)
            (Plain VUndefined) "undefined" (VStr "alice") same friends
            (Object friends_config) friends_config _ _ _).
  - reflexivity.
  - reflexivity.
  - left. discriminate.
Defined.

(** ** At most one outcome *)

Lemma events_bind_outcome {A B} (m : M A) (k : A -> M B) :
  events (bind m k) =
  (events m ++
   match outcome m with
   | Normal a => events (k a)
   | Throw _ => []
   end)%list.
Proof.
  destruct m as [[a|e] w]; simpl.
  - destruct (k a); reflexivity.
  - rewrite app_nil_r. reflexivity.
Qed.

Lemma events_then_ret {A B} (p : promise A) onF onR
    (h : promise value -> B) :
  events (q <- then_ p onF onR ;; ret (h q)) =
  events match p with Fulfilled a => onF a | Rejected e => onR e end.
Proof.
  rewrite events_bind_outcome, then_run. simpl. apply app_nil_r.
Qed.

Lemma silent_call e (f : jsval callback) arg :
  silent f -> dispatched [e] = [] ->
  dispatched (events (call e f arg)) = [].
Proof.
  intros Hf He. destruct f as [v|g]; simpl; [reflexivity|].
  specialize (Hf arg). destruct (g arg) as [out w]. simpl in *.
  subst w. exact He.
Qed.

Lemma with_defaults_silent (c : config) :
  config_silent c -> config_silent (with_defaults c).
Proof.
  intros (Hu & Ho & Hp & Hd). unfold config_silent, with_defaults. simpl.
  repeat split.
  - exact Hu.
  - destruct (fetchOptionsFunc c) as [[]|]; simpl; try exact I; try exact Ho.
    reflexivity.
  - destruct (parseResponse c) as [[]|]; simpl; try exact I; try exact Hp.
    reflexivity.
  - destruct (deferredSuccess c) as [[]|]; simpl; try exact I; exact Hd.
Qed.

Lemma onRejected_one_outcome returns s key error :
  one_outcome s key
    (dispatched
       (events (onRejected (Plain (VStr s)) key (store returns) error))).
Proof.
  rewrite onRejected_run. right. right. exists error. reflexivity.
Qed.

Lemma onValue_one_outcome returns s key cfg v :
  config_silent cfg ->
  one_outcome s key
    (dispatched
       (events (onValue (Plain (VStr s)) key (store returns) cfg v))).
Proof.
  intros (_ & _ & Hp & Hd). unfold onValue.
  destruct (negb (typeof (deferredSuccess cfg) =? "undefined")).
  - left. rewrite events_bind_outcome, dispatched_app.
    rewrite (silent_call _ _ _ Hd) by reflexivity.
    destruct (outcome _); reflexivity.
  - rewrite events_bind_outcome, dispatched_app.
    rewrite (silent_call _ _ _ Hp) by reflexivity.
    destruct (outcome _) as [parsed|e]; [|left; reflexivity].
    right. left. exists parsed. reflexivity.
Qed.

Lemma onResponse_one_outcome returns s key cfg r :
  config_silent cfg ->
  one_outcome s key
    (dispatched
       (events (onResponse (Plain (VStr s)) key (store returns) cfg r))).
Proof.
  intros Hcfg. unfold onResponse.
  assert (Hthen : forall b : promise value,
            one_outcome s key
              (dispatched
                 (events
                    (q <- then_ b
                            (onValue (Plain (VStr s)) key (store returns) cfg)
                            (onRejected (Plain (VStr s)) key (store returns)) ;;
                     ret (Thenable q))))).
  { intros b. rewrite events_then_ret. destruct b as [v|e].
    - apply onValue_one_outcome, Hcfg.
    - apply onRejected_one_outcome. }
  rewrite events_bind_outcome, dispatched_app.
  destruct (call_body_cases r (responseType cfg))
    as [[m H]|[(k & p & H)|[(k & e & H)|H]]]; rewrite H; simpl.
  - apply Hthen.
  - apply Hthen.
  - left. reflexivity.
  - left. reflexivity.
Qed.

Lemma issue_one_outcome network returns s key cfg :
  config_silent cfg ->
  one_outcome s key
    (dispatched
       (events (issue (transport network) (Plain (VStr s)) key
                  (store returns) cfg))).
Proof.
  intros Hcfg. pose proof Hcfg as (Hu & Ho & _ & _). unfold issue.
  rewrite events_bind_outcome, dispatched_app.
  rewrite (silent_call _ _ _ Hu) by reflexivity.
  destruct (outcome _) as [url|e]; [|left; reflexivity].
  rewrite events_bind_outcome, dispatched_app.
  rewrite (silent_call _ _ _ Ho) by reflexivity.
  destruct (outcome _) as [options|e]; [|left; reflexivity].
  rewrite events_bind_outcome. simpl outcome. simpl events at 1.
  cbv beta iota. rewrite events_then_ret. simpl.
  destruct (network url options) as [r|e].
  - apply onResponse_one_outcome, Hcfg.
  - apply onRejected_one_outcome.
Qed.

(** X8.  With a string prefix [s], a configuration whose [fetchURLFunc] is
    a function, and callbacks that cause no event of their own (they may
    throw): whatever the network does and wherever a callback throws, the
    actions of one invocation are the request action followed by at most one
    other action, a success action or a failure action of the same prefix
    and key - never both, never two. *)
Theorem X8_at_most_one_outcome :
  forall (network : value -> value -> promise response)
         (returns : value -> value) (s : string) (key : value)
         (pf : callback -> M params) (c : config),
    pf (dispatchSuccessAction (Plain (VStr s)) key (store returns)) =
      ret (Object c) ->
    typeof (fetchURLFunc c) = "function" ->
    config_silent c ->
    exists d,
      dispatched
        (events
           (Fetcher (transport network) (Plain (VStr s)) (Func pf) key
              (store returns))) =
      VObj [("type", VStr (s ++ "_REQUEST")); ("key", key)] :: d /\
      (d = [] \/
       (exists result,
          d = [VObj [("type", VStr (s ++ "_SUCCESS")); ("key", key);
                     ("result", result)]]) \/
       (exists error,
          d = [VObj [("type", VStr (s ++ "_FAILURE")); ("key", key);
                     ("error", error)]])).
Proof.
  intros network returns s key pf c Hpf Hurl Hsilent.
  rewrite (passes_validation returns s key (transport network) pf c []
             Hpf Hurl).
  eexists. split; [reflexivity|].
  apply (issue_one_outcome network returns s key (with_defaults c)).
  apply with_defaults_silent, Hsilent.
Qed.

Lemma X8_witness :
  exists d,
    dispatched
      (events
         (Fetcher (transport garbled_network) (Plain (VStr "FETCH_FRIENDS"))
            (Func failing_parse_params) (VStr "alice") (store same))) =
    VObj [("type", VStr ("FETCH_FRIENDS" ++ "_REQUEST"));
          ("key", VStr "alice")] :: d /\
    (d = [] \/
     (exists result,
        d = [VObj [("type", VStr ("FETCH_FRIENDS" ++ "_SUCCESS"));
                   ("key", VStr "alice"); ("result", result)]]) \/
     (exists error,
        d = [VObj [("type", VStr ("FETCH_FRIENDS" ++ "_FAILURE"));
                   ("key", VStr "alice"); ("error", error)]])).
Proof.
  refine (X8_at_most_one_outcome garbled_network same "FETCH_FRIENDS"
            (VStr "alice") failing_parse_params _ _ _ _).
  - reflexivity.
  - reflexivity.
  - split; [|split; [|split]]; simpl; try exact I.
    + intros v. apply friends_url_silent.
    + intros v. reflexivity.
Defined.

(** ** The types of the actions *)

Lemma length_append (a b : string) :
  String.length (a ++ b) = String.length a + String.length b.
Proof.
  induction a as [|ch a IH]; simpl; [reflexivity|].
  rewrite IH. reflexivity.
Qed.

(** Two strings that end in suffixes of the same length are equal only if
    the parts before and the suffixes are. *)
Lemma append_same_length (s s' a b : string) :
  String.length a = String.length b ->
  s ++ a = s' ++ b -> s = s' /\ a = b.
Proof.
  intros Hlen. revert s'.
  induction s as [|ch s IH]; intros [|ch' s']; simpl; intros H.
  - split; [reflexivity|exact H].
  - exfalso. apply (f_equal String.length) in H. simpl in H.
    rewrite length_append in H. lia.
  - exfalso. apply (f_equal String.length) in H. simpl in H.
    rewrite length_append in H. lia.
  - injection H as -> H. destruct (IH s' H) as [-> ->].
    split; reflexivity.
Qed.

Lemma typed_same (s s' suffix : string) rest :
  typed (s' ++ suffix) (VObj (("type", VStr (s ++ suffix)) :: rest)) = true
  <-> s' = s.
Proof.
  unfold typed. simpl. rewrite String.eqb_eq. split.
  - intros H. apply append_same_length in H; [|reflexivity].
    symmetry. apply H.
  - intros ->. reflexivity.
Qed.

Lemma typed_other (s s' a b : string) rest :
  String.length a = String.length b -> a <> b ->
  typed (s' ++ b) (VObj (("type", VStr (s ++ a)) :: rest)) = false.
Proof.
  intros Hlen Hneq. unfold typed. simpl. apply String.eqb_neq.
  intros H. apply append_same_length in H; [|exact Hlen].
  apply Hneq, H.
Qed.

(** X9.  For string prefixes the three action creators never collide: an
    action has the request type of a prefix [s'] exactly when it is a
    request action created for [s'], and likewise for success and failure;
    a request, a success and a failure action never share a type, whatever
    their prefixes.  So a reducer that compares [action.type] with
    [s' + '_REQUEST'], [s' + '_SUCCESS'] or [s' + '_FAILURE'] tells kind and
    prefix apart. *)
Theorem X9_action_types_do_not_collide :
  forall (s s' : string) (key result error : value),
    requestAction (Plain (VStr s)) key = ret (request_of s key) /\
    successAction (Plain (VStr s)) key result =
      ret (success_of s key result) /\
    failureAction (Plain (VStr s)) key error =
      ret (failure_of s key error) /\
    (typed (s' ++ "_REQUEST") (request_of s key) = true <-> s' = s) /\
    (typed (s' ++ "_SUCCESS") (success_of s key result) = true <-> s' = s) /\
    (typed (s' ++ "_FAILURE") (failure_of s key error) = true <-> s' = s) /\
    typed (s' ++ "_REQUEST") (success_of s key result) = false /\
    typed (s' ++ "_REQUEST") (failure_of s key error) = false /\
    typed (s' ++ "_SUCCESS") (request_of s key) = false /\
    typed (s' ++ "_SUCCESS") (failure_of s key error) = false /\
    typed (s' ++ "_FAILURE") (request_of s key) = false /\
    typed (s' ++ "_FAILURE") (success_of s key result) = false.
Proof.
  intros s s' key result error.
  repeat match goal with |- _ /\ _ => split end;
    try reflexivity;
    try apply typed_same;
    apply typed_other; (reflexivity || discriminate).
Qed.

(** ** A response type that names nothing callable *)

Lemma onResponse_not_callable returns s key cfg r :
  not_callable r (responseType cfg) ->
  onResponse (Plain (VStr s)) key (store returns) cfg r =
  (Throw TypeError, []).
Proof.
  unfold not_callable, onResponse, call_body, invoke.
  destruct (ToPropertyKey (responseType cfg)) as [[name|description]|].
  - intros [Hm Hother]. rewrite Hm, Hother. reflexivity.
  - intros Hother. rewrite Hother. reflexivity.
  - reflexivity.
Qed.

(** X10.  The response type is whatever the configuration holds once the
    default has replaced [undefined]: [null], a number, a symbol are used
    as they are, converted to a property key.  When that key is none of the
    five method names and the response has no method under it, the request
    action is dispatched and [fetch] is called; when the response arrives
    the handler throws, the promise is rejected with a TypeError, and no
    failure action is dispatched. *)
Theorem X10_uncallable_response_type :
  forall (network : value -> value -> promise response)
         (returns : value -> value) (s : string) (key : value)
         (pf : callback -> M params) (c : config)
         (url options : value) (r : response),
    pf (dispatchSuccessAction (Plain (VStr s)) key (store returns)) =
      ret (Object c) ->
    yields (fetchURLFunc c) key url ->
    yields (fetchOptionsFunc (with_defaults c)) key options ->
    network url options = Fulfilled r ->
    not_callable r (responseType (with_defaults c)) ->
    Fetcher (transport network) (Plain (VStr s)) (Func pf) key
      (store returns) =
    (Normal (ReturnsPromise (Rejected TypeError)),
     [CallParamsFunc;
      Dispatch (VObj [("type", VStr (s ++ "_REQUEST")); ("key", key)]);
      CallFetchURLFunc key;
      CallFetchOptionsFunc key;
      CallFetch url options]).
Proof.
  intros network returns s key pf c url options r Hpf Hu Ho Hnet Hnone.
  rewrite (issued_run network returns s key pf c [] url options Hpf Hu Ho).
  rewrite Hnet.
  rewrite (onResponse_not_callable returns s key (with_defaults c) r Hnone).
  reflexivity.
Qed.

Lemma X10_witness :
  Fetcher (transport platform_network) (Plain (VStr "FETCH_FRIENDS"))
    (Func null_type_params) (VStr "alice") (store same) =
  (Normal (ReturnsPromise (Rejected TypeError)),
   [CallParamsFunc;
    Dispatch (VObj [("type", VStr ("FETCH_FRIENDS" ++ "_REQUEST"));
                    ("key", VStr "alice")]);
    CallFetchURLFunc (VStr "alice");
    CallFetchOptionsFunc (VStr "alice");
    CallFetch (VStr "/api/alice/friends/")
      (VObj [("method", VStr "GET")])]).
Proof.
  refine (X10_uncallable_response_type platform_network same "FETCH_FRIENDS"
            (VStr "alice") null_type_params _
            (VStr "/api/alice/friends/") (VObj [("method", VStr "GET")])
            platform_response _ _ _ _ _).
  - reflexivity.
  - eexists. split; reflexivity.
  - eexists. split; reflexivity.
  - reflexivity.
  - split; reflexivity.
Defined.

(** ** The diagnostic and the call of [paramsFunc] *)

Lemma after_request_quiet s key (w : list event) :
  Forall (after_request s key) w ->
  filter is_diagnostic w = [] /\ filter is_params_call w = [].
Proof.
  induction 1 as [|e w He _ [IHd IHp]]; simpl; [split; reflexivity|].
  destruct e; simpl in *; try contradiction; split; assumption.
Qed.

(** X11.  With a string prefix and a configuration whose [fetchURLFunc] is
    a function, and callbacks that reach the store through the capability
    only: the run writes no diagnostic, and [paramsFunc] is called exactly
    once, whatever the network does and whether or not a callback throws. *)
Theorem X11_valid_run_never_logs :
  forall (network : value -> value -> promise response)
         (returns : value -> value) (s : string) (key : value)
         (pf : callback -> M params) (c : config) (w0 : list event),
    let capability :=
      dispatchSuccessAction (Plain (VStr s)) key (store returns) in
    let run :=
      Fetcher (transport network) (Plain (VStr s)) (Func pf) key
        (store returns) in
    pf capability = (Normal (Object c), w0) ->
    typeof (fetchURLFunc c) = "function" ->
    via capability w0 ->
    config_via capability c ->
    filter is_diagnostic (events run) = [] /\
    filter is_params_call (events run) = [CallParamsFunc].
Proof.
  intros network returns s key pf c w0 capability run Hpf Hurl Hw0 Hc.
  subst capability run.
  rewrite (passes_validation returns s key (transport network) pf c w0
             Hpf Hurl).
  destruct (after_request_quiet s key w0
              (via_after_request returns s key w0 Hw0)) as [Hd0 Hp0].
  destruct (after_request_quiet s key _
              (issue_after_request network returns s key (with_defaults c)
                 (with_defaults_via returns s key c Hc))) as [Hd Hp].
  simpl events.
  change (CallParamsFunc :: w0 ++ ?x)%list
    with ([CallParamsFunc] ++ w0 ++ x)%list.
  rewrite !filter_app, Hd0, Hp0. simpl.
  rewrite Hd, Hp. split; reflexivity.
Qed.

Lemma X11_witness :
  filter is_diagnostic
    (events
       (Fetcher (transport reset_network) (Plain (VStr "FETCH_FRIENDS"))
          (Func deferring_params) (VStr "alice") (store same))) = [] /\
  filter is_params_call
    (events
       (Fetcher (transport reset_network) (Plain (VStr "FETCH_FRIENDS"))
          (Func deferring_params) (VStr "alice") (store same))) =
  [CallParamsFunc].
Proof.
  eapply (X11_valid_run_never_logs reset_network same "FETCH_FRIENDS"
            (VStr "alice") deferring_params).
  - reflexivity.
  - reflexivity.
  - constructor.
  - split; [|split; [|split]]; simpl; try exact I.
    + intros v. rewrite friends_url_silent. constructor.
    + intros v. unfold via. apply Forall_forall. intros e He.
      exists v. exact He.
Defined.
